(** * DSATutor: hint progression, solution evaluation and progress tracking

    A shallow embedding of the stateful core of the DSA tutor
    ([agents/hintAgent.py], [agents/EvalAgent.py], [agents/teacherAgent.py],
    [orchestrator.py], [knowledge_base.py]) and the properties its
    specification states about it.

    Conventions of the embedding.
    - A Python call either returns a value or raises: [outcome].  Methods of
      objects with mutable attributes are state-passing functions into
      [outcome]; a raise keeps the mutations made before it.
    - The language model and the vector store are black boxes: a call to
      them is a function from the request to what came back, quantified over
      in every theorem.  [json.loads] is likewise a function from text to an
      optional JSON value ([None]: the decoder raised).
    - Python [str] is [string]; each [ascii] stands for one code point below
      256.  Python [int] is [Z].  The evaluator's score is a Python float
      that only ever holds sums of 10, 20 and 40, all exact in binary
      floating point, and is kept in [Z]. *)

From Stdlib Require Import ZArith QArith Qround String Ascii List Lia.
From stdpp Require Import gmap strings list.

Local Open Scope string_scope.
Local Open Scope Z_scope.
Local Set Warnings "-register-all".

(** ** Python values and control flow *)

Module Py.

Inductive exn : Type :=
| TypeError
| AttributeError
| ValueError
| KeyError
| ExternalError.      (* whatever a failed service call raises *)

Inductive outcome (A : Type) : Type :=
| Returned (a : A)
| Raised (e : exn).
Arguments Returned {A} a.
Arguments Raised {A} e.

#[global] Instance outcome_ret : MRet outcome := fun A a => Returned a.
#[global] Instance outcome_bind : MBind outcome := fun A B f m =>
  match m with
  | Returned a => f a
  | Raised e => Raised e
  end.

(** A method of an object whose attributes make up [S]. *)
Definition method (S A : Type) : Type := S -> outcome A * S.

#[global] Instance method_ret {S} : MRet (method S) :=
  fun A a s => (Returned a, s).
#[global] Instance method_bind {S} : MBind (method S) := fun A B f m s =>
  match m s with
  | (Returned a, s') => f a s'
  | (Raised e, s') => (Raised e, s')
  end.

Definition get_self {S} : method S S := fun s => (Returned s, s).
Definition set_self {S} (s' : S) : method S unit := fun _ => (Returned tt, s').
Definition lift {S A} (o : outcome A) : method S A := fun s => (o, s).

(** Floats as far as truth testing needs them: [nan] and the infinities
    are accepted by [json.loads] and are truthy. *)
Inductive pyfloat : Type :=
| FNan
| FInf (negative : bool)
| FFinite (q : Q).

(** What [json.loads] produces.  An object keeps its keys in order. *)
Inductive json : Type :=
| JNull
| JBool (b : bool)
| JInt (z : Z)
| JFloat (f : pyfloat)
| JStr (s : string)
| JList (l : list json)
| JObj (fields : list (string * json)).

(** [bool(v)] *)
Definition truthy (v : json) : bool :=
  match v with
  | JNull => false
  | JBool b => b
  | JInt z => negb (z =? 0)
  | JFloat FNan => true
  | JFloat (FInf _) => true
  | JFloat (FFinite q) => negb (Qeq_bool q 0)
  | JStr s => negb (String.length s =? 0)%nat
  | JList l => negb (length l =? 0)%nat
  | JObj fs => negb (length fs =? 0)%nat
  end.

(** [len(v)]; [None], booleans and numbers have no length. *)
Definition len (v : json) : outcome Z :=
  match v with
  | JStr s => Returned (Z.of_nat (String.length s))
  | JList l => Returned (Z.of_nat (length l))
  | JObj fs => Returned (Z.of_nat (length fs))
  | _ => Raised TypeError
  end.

Fixpoint assoc (key : string) (fs : list (string * json)) : option json :=
  match fs with
  | [] => None
  | (k, v) :: rest => if String.eqb k key then Some v else assoc key rest
  end.

(** [v.get(key, default)]; only a dict has the method. *)
Definition get (v : json) (key : string) (default : json) : outcome json :=
  match v with
  | JObj fs => Returned (match assoc key fs with Some x => x | None => default end)
  | _ => Raised AttributeError
  end.

(** [for x in v]: the items a loop over [v] visits. *)
Definition iter (v : json) : outcome (list json) :=
  match v with
  | JList l => Returned l
  | JStr s => Returned (map (fun c => JStr (String c EmptyString)) (list_ascii_of_string s))
  | JObj fs => Returned (map (fun kv => JStr (fst kv)) fs)
  | _ => Raised TypeError
  end.

(** *** Strings *)

(** [c.isspace()] on the code points below 256. *)
Definition isspace (c : ascii) : bool :=
  let n := nat_of_ascii c in
  ((9 <=? n) && (n <=? 13) || (28 <=? n) && (n <=? 32) || (n =? 133) || (n =? 160))%nat.

Fixpoint lstrip (s : string) : string :=
  match s with
  | EmptyString => EmptyString
  | String c rest => if isspace c then lstrip rest else s
  end.

Definition rstrip (s : string) : string := String.rev (lstrip (String.rev s)).

(** [s.strip()] *)
Definition strip (s : string) : string := rstrip (lstrip s).

(** [needle in hay] *)
Fixpoint contains (needle hay : string) : bool :=
  String.prefix needle hay ||
  match hay with
  | EmptyString => false
  | String _ rest => contains needle rest
  end.

(** [s.split(sep)] for a one-character separator. *)
Fixpoint split_go (sep : ascii) (cur : string) (s : string) : list string :=
  match s with
  | EmptyString => [String.rev cur]
  | String c rest =>
      if Ascii.eqb c sep then String.rev cur :: split_go sep EmptyString rest
      else split_go sep (String c cur) rest
  end.

Definition split (sep : ascii) (s : string) : list string :=
  split_go sep EmptyString s.

(** [c.lower()] on the code points below 256. *)
Definition lower_char (c : ascii) : ascii :=
  let n := nat_of_ascii c in
  if ((65 <=? n) && (n <=? 90) || (192 <=? n) && (n <=? 222) && negb (n =? 215))%nat
  then ascii_of_nat (n + 32) else c.

Fixpoint lower (s : string) : string :=
  match s with
  | EmptyString => EmptyString
  | String c rest => String (lower_char c) (lower rest)
  end.

(** The one-character string ["\n"]. *)
Definition nl : string := String "010"%char EmptyString.

(** [sep.join(parts)] *)
Fixpoint join (sep : string) (parts : list string) : string :=
  match parts with
  | [] => ""
  | [p] => p
  | p :: rest => p +:+ sep +:+ join sep rest
  end.

(** [s[:n]] for [n >= 0] *)
Fixpoint take (n : nat) (s : string) : string :=
  match n, s with
  | S k, String c rest => String c (take k rest)
  | _, _ => EmptyString
  end.

(** An optional [str] argument under a truth test ([if text], [text or
    ...]): it counts when it is given and not empty. *)
Definition given (text : option string) : option string :=
  match text with
  | Some t => if (String.length t =? 0)%nat then None else Some t
  | None => None
  end.

End Py.
Import Py.

(** ** Enumerations and documents ([knowledge_base.py]) *)

Module KnowledgeBase.

Inductive Difficulty : Type := EASY | MEDIUM | HARD.

(** [d.value] *)
Definition Difficulty_value (d : Difficulty) : string :=
  match d with
  | EASY => "Easy"
  | MEDIUM => "Medium"
  | HARD => "Hard"
  end.

(** [Difficulty(s)]: lookup by value; an unknown value raises [ValueError]. *)
Definition Difficulty_of_value (s : string) : outcome Difficulty :=
  if String.eqb s "Easy" then Returned EASY
  else if String.eqb s "Medium" then Returned MEDIUM
  else if String.eqb s "Hard" then Returned HARD
  else Raised ValueError.

(** [[t.value for t in Topic]], in declaration order. *)
Definition Topic_values : list string :=
  ["Arrays"; "Linked Lists"; "Trees"; "Graphs"; "Sorting"; "Searching";
   "Dynamic Programming"; "Recursion"; "Backtracking"; "Queues"; "Stacks"].

Record Document : Type := {
  page_content : string;
  metadata : list (string * json)
}.

(** A problem as the agents receive it: the dict's ["id"] entry, a [str]
    whenever the question generator made the problem, and its other
    entries. *)
Record problem : Type := {
  problem_id : option string;
  problem_fields : list (string * json)
}.

Section Query.
(** [vector_store.similarity_search(question, k=5)] *)
Variable similarity_search : string -> outcome (list Document).

Definition query (question : string) (topic : string) : outcome (list Document) :=
  let question :=
    if negb (String.length topic =? 0)%nat
    then question +:+ " [Topic: " +:+ topic +:+ "]"
    else question in
  similarity_search question.
End Query.

End KnowledgeBase.
Import KnowledgeBase.

(** ** Requests to the language model

    One constructor per prompt template of the agents, carrying what the
    template interpolates.  A model function [prompt -> outcome string]
    stands for formatting the template, [llm.invoke] and reading
    [response.content]: it returns the content, or raises what any of the
    three raised. *)

Inductive prompt : Type :=
| HintLevel0 (p : problem)
| HintLevel1 (p : problem) (approach_context : string)
| HintLevel2 (p : problem) (code_context : string)
| HintLevel3 (p : problem)
| ConceptualTests (p : problem) (code : string)
| Feedback (p : problem) (code : string) (explanation : string) (test_results : json)
| Improvements (code : string) (p : problem)
| Welcome (topics_str : string).

(** ** The hint agent ([agents/hintAgent.py]) *)

Module HintAgent.

(** The dict [get_progressive_hints] returns. *)
Record hint_result : Type := {
  hint : string;
  hint_level : Z;
  max_level : Z;
  next_level_available : bool
}.

(** [d[key]] *)
Definition getitem (d : gmap string Z) (key : string) : outcome Z :=
  match d !! key with
  | Some v => Returned v
  | None => Raised KeyError
  end.

Section WithModel.
Variable llm : prompt -> outcome string.

Definition _get_level_0_hint (p : problem) : outcome string :=
  llm (HintLevel0 p).

Definition _get_level_1_hint (p : problem) (student_approach : option string)
  : outcome string :=
  let approach_context :=
    match given student_approach with
    | Some a => nl +:+ "Student mentioned they're trying: " +:+ a
    | None => ""
    end in
  llm (HintLevel1 p approach_context).

Definition _get_level_2_hint (p : problem) (student_code : option string)
  : outcome string :=
  let code_context :=
    match given student_code with
    | Some c => nl +:+ "Student's current code:" +:+ nl +:+ c
    | None => ""
    end in
  llm (HintLevel2 p code_context).

Definition _get_level_3_hint (p : problem) : outcome string :=
  llm (HintLevel3 p).

(** The object's one mutable attribute is [hint_history], the state of
    the method. *)
Definition get_progressive_hints (p : problem)
    (student_code student_approach : option string) (hint_level : Z)
  : method (gmap string Z) hint_result :=
  let problem_id := default "unknown" (problem_id p) in
  hint_history ← get_self;
  (if decide (hint_history !! problem_id = None)
   then set_self (<[problem_id := 0]> hint_history)
   else mret tt);;
  hint_history ← get_self;
  stored ← lift (getitem hint_history problem_id);
  let current_level := Z.max stored hint_level in
  hint ← lift (if current_level =? 0 then _get_level_0_hint p
               else if current_level =? 1 then _get_level_1_hint p student_approach
               else if current_level =? 2 then _get_level_2_hint p student_code
               else _get_level_3_hint p);
  set_self (<[problem_id := current_level + 1]> hint_history);;
  mret {| hint := hint;
          hint_level := current_level;
          max_level := 3;
          next_level_available := current_level <? 3 |}.

End WithModel.

End HintAgent.

(** ** The evaluator ([agents/EvalAgent.py]) *)

Module EvalAgent.

(** The dict [_check_syntax] returns. *)
Record syntax_report : Type := {
  has_issues : bool;
  issues : list string;
  code_length : Z;
  line_count : Z
}.

Definition INCOMPLETE := "Code appears incomplete".
Definition NO_DEFINITION := "No function or class definition found".
Definition INFINITE_LOOP := "Potential infinite loop detected".
Definition IMPORTS := "Note: Imports detected - ensure they're allowed".

(** [issues.append(x)] when [test] holds. *)
Definition append_if (test : bool) (x : string) (l : list string) : list string :=
  if test then (l ++ [x])%list else l.

Definition _check_syntax (code : string) : syntax_report :=
  let issues := [] in
  let issues := append_if (Z.of_nat (String.length (strip code)) <? 10) INCOMPLETE issues in
  let issues :=
    append_if (negb (contains "def " code) && negb (contains "class " code))
              NO_DEFINITION issues in
  let issues :=
    append_if (contains "while True:" code && negb (contains "break" code))
              INFINITE_LOOP issues in
  let issues := append_if (contains "import " code) IMPORTS issues in
  {| has_issues := 0 <? Z.of_nat (length issues);
     issues := issues;
     code_length := Z.of_nat (String.length code);
     line_count := Z.of_nat (length (split "010"%char code)) |}.

(** The dict [evaluate_solution] returns. *)
Record evaluation : Type := {
  score : Z;
  syntax_check : syntax_report;
  test_results : json;
  feedback : json;
  improvements : list json;
  correctness : bool;
  next_steps : list string
}.

(** The literal of the [except] branch of [_run_conceptual_tests]. *)
Definition DEFAULT_TEST_RESULTS : json :=
  JObj [("approach_correct", JBool false);
        ("edge_cases_handled", JList []);
        ("time_complexity", JStr "Unknown");
        ("space_complexity", JStr "Unknown");
        ("potential_bugs", JList [JStr "Could not parse evaluation"])].

(** The literal of the [except] branch of [_generate_feedback]. *)
Definition DEFAULT_FEEDBACK : json :=
  JObj [("positives", JList [JStr "Attempted to solve the problem"]);
        ("improvements_needed", JList [JStr "Code needs more work"]);
        ("concept_gaps", JList []);
        ("specific_suggestions", JList [JStr "Review the problem requirements"])].

Definition _calculate_score (syntax_check : syntax_report)
    (test_results feedback : json) : outcome Z :=
  let score := 0 in
(* Syntax (20%) *)
let score := if negb (has_issues syntax_check) then score + 20 else score in
(* Approach correctness (40%) *)
approach_correct ← get test_results "approach_correct" (JBool false);
let score := if truthy approach_correct then score + 40 else score in
(* Edge cases (20%) *)
edge_cases ← get test_results "edge_cases_handled" (JList []);
n_edge ← len edge_cases;
let score := if 2 <=? n_edge then score + 20
             else if n_edge =? 1 then score + 10 else score in
(* Code quality (20%) - based on feedback *)
positives ← get feedback "positives" (JList []);
n_pos ← len positives;
let score := if 2 <=? n_pos then score + 20
             else if n_pos =? 1 then score + 10 else score in
mret (Z.min 100 score).

Definition _recommend_next_steps (score : Z) (feedback : json) : list string :=
  if 90 <=? score then
    ["Try a harder variation of this problem";
     "Explain your solution to reinforce learning";
     "Help another student with similar problem"]
  else if 70 <=? score then
    ["Review the suggested improvements";
     "Try the problem again with optimizations";
     "Practice similar problems"]
  else if 50 <=? score then
    ["Review the core concept";
     "Study the solution approach";
     "Try a simpler version first"]
  else
    ["Review fundamental concepts";
     "Start with easier problems";
     "Ask for more hints on this problem"].

(** [d[key] = v]: an existing key keeps its place. *)
Fixpoint setitem (key : string) (v : json) (d : list (string * json))
  : list (string * json) :=
  match d with
  | [] => [(key, v)]
  | (k, x) :: rest =>
      if String.eqb k key then (k, v) :: rest else (k, x) :: setitem key v rest
  end.

(** The entry built for one item of [improvements_needed]; [.lower()]
    exists on a [str] only. *)
Definition general_suggestion (improvement : json) : outcome json :=
  match improvement with
  | JStr text =>
      Returned (JObj [("type", JStr "general");
                      ("suggestion", improvement);
                      ("priority",
                       JStr (if contains "critical" (lower text)
                             then "high" else "medium"))])
  | _ => Raised AttributeError
  end.

(** [{"type": "code", **sugg}]; [**] accepts a mapping only. *)
Definition code_suggestion (sugg : json) : outcome json :=
  match sugg with
  | JObj fields =>
      Returned (JObj (fold_left (fun d kv => setitem (fst kv) (snd kv) d)
                                fields [("type", JStr "code")]))
  | _ => Raised TypeError
  end.

Section WithModel.
Variable llm : prompt -> outcome string.
Variable json_loads : string -> option json.

(** [try: return json.loads(content) / except: return fallback] *)
Definition loads_or (fallback : json) (content : string) : json :=
  match json_loads content with
  | Some v => v
  | None => fallback
  end.

Definition _run_conceptual_tests (p : problem) (code : string) : outcome json :=
  content ← llm (ConceptualTests p code);
  mret (loads_or DEFAULT_TEST_RESULTS content).

Definition _generate_feedback (p : problem) (code : string)
    (explanation : option string) (test_results : json) : outcome json :=
  let shown := default "No explanation provided" (given explanation) in
  content ← llm (Feedback p code shown test_results);
  mret (loads_or DEFAULT_FEEDBACK content).

Definition _suggest_improvements (code : string) (p : problem) (feedback : json)
  : outcome (list json) :=
  needed ← get feedback "improvements_needed" (JList []);
  items ← iter needed;
  suggestions ← mapM general_suggestion items;
  content ← llm (Improvements code p);
  (* try: ... except: pass *)
  let code_items :=
    match json_loads content with
    | Some code_suggestions =>
        match (items ← iter code_suggestions; mapM code_suggestion items) with
        | Returned extra => extra
        | Raised _ => []
        end
    | None => []
    end in
  mret (firstn 5 (suggestions ++ code_items)%list).

Definition evaluate_solution (p : problem) (student_code : string)
    (student_explanation : option string) : outcome evaluation :=
  let syntax_check := _check_syntax student_code in
  test_results ← _run_conceptual_tests p student_code;
  feedback ← _generate_feedback p student_code student_explanation test_results;
  score ← _calculate_score syntax_check test_results feedback;
  improvements ← _suggest_improvements student_code p feedback;
  mret {| score := score;
          syntax_check := syntax_check;
          test_results := test_results;
          feedback := feedback;
          improvements := improvements;
          correctness := 70 <=? score;
          next_steps := _recommend_next_steps score feedback |}.

End WithModel.

End EvalAgent.

(** ** The teacher agent ([agents/teacherAgent.py]) *)

Module TeacherAgent.

(** A value of [student_progress]: a dict with exactly these four keys. *)
Record progress : Type := {
  total_sessions : Z;
  topics_mastery : list (string * Q);
  weak_areas : list string;
  learning_path : list json
}.

Record session : Type := {
  session_id : string;
  student_id : string;
  topics : list string;
  difficulty : Difficulty;
  start_time : Z;
  problems_attempted : list json;
  concepts_covered : list json;
  performance_metrics : list (string * json)
}.

(** The mutable attributes of the agent. *)
Record state : Type := {
  student_progress : gmap string progress;
  current_session : option session
}.

(** The dict [start_teaching_session] returns. *)
Record session_info : Type := {
  info_session_id : string;
  welcome_message : string;
  learning_plan : list json;
  first_concept : option json
}.

Definition metadata_is (key value : string) (d : Document) : bool :=
  match assoc key (metadata d) with
  | Some (JStr s) => String.eqb s value
  | _ => false
  end.

Section WithServices.
Variable llm : prompt -> outcome string.
Variable similarity_search : string -> outcome (list Document).

(** One round of the loop of [_generate_learning_plan]. *)
Definition plan_for_topic (difficulty : Difficulty) (topic : string)
  : outcome (list json) :=
  docs ← query similarity_search ("Introduction to " +:+ topic) topic;
  let concept_part :=
    match List.find (metadata_is "type" "concept") docs with
    | Some concept_doc =>
        [JObj [("type", JStr "concept");
               ("topic", JStr topic);
               ("content", JStr (Py.take 500 (page_content concept_doc) +:+ "..."));
               ("difficulty", JStr (Difficulty_value difficulty))]]
    | None => []
    end in
  docs ← query similarity_search
           (Difficulty_value difficulty +:+ " problem about " +:+ topic) topic;
  let problem_part :=
    match List.filter (metadata_is "type" "problem") docs with
    | problem_doc :: _ =>
        [JObj [("type", JStr "problem");
               ("topic", JStr topic);
               ("problem_id",
                default JNull (assoc "problem_id" (metadata problem_doc)));
               ("difficulty", JStr (Difficulty_value difficulty))]]
    | [] => []
    end in
  mret (concept_part ++ problem_part)%list.

Definition _generate_learning_plan (topics : list string) (difficulty : Difficulty)
  : outcome (list json) :=
  parts ← mapM (plan_for_topic difficulty) topics;
  mret (concat parts).

Definition _generate_welcome_message (topics : list string) : outcome string :=
  llm (Welcome (join ", " topics)).

Definition fresh_progress : progress :=
  {| total_sessions := 0;
     topics_mastery := map (fun t => (t, 0%Q)) Topic_values;
     weak_areas := [];
     learning_path := [] |}.

(** [progress["total_sessions"] += 1] *)
Definition count_session (pr : progress) : progress :=
  {| total_sessions := total_sessions pr + 1;
     topics_mastery := topics_mastery pr;
     weak_areas := weak_areas pr;
     learning_path := learning_path pr |}.

(** [uuid] and [now] are what [uuid.uuid4()] and [datetime.now()] give
    during the call. *)
Definition start_teaching_session (uuid : string) (now : Z)
    (student_id : string) (topics : list string) (difficulty : Difficulty)
  : method state session_info :=
  let session_id := uuid in
  self ← get_self;
  let self :=
    {| student_progress := student_progress self;
       current_session :=
         Some {| session_id := session_id;
                 student_id := student_id;
                 topics := topics;
                 difficulty := difficulty;
                 start_time := now;
                 problems_attempted := [];
                 concepts_covered := [];
                 performance_metrics := [] |} |} in
  (* Initialize student progress if needed *)
  let table :=
    if decide (student_progress self !! student_id = None)
    then <[student_id := fresh_progress]> (student_progress self)
    else student_progress self in
  let table := alter count_session student_id table in
  set_self {| student_progress := table;
              current_session := current_session self |};;
  learning_plan ← lift (_generate_learning_plan topics difficulty);
  welcome ← lift (_generate_welcome_message topics);
  mret {| info_session_id := session_id;
          welcome_message := welcome;
          learning_plan := learning_plan;
          first_concept := head learning_plan |}.

End WithServices.

End TeacherAgent.

(** ** The orchestrator ([orchestrator.py]) *)

Module Orchestrator.

(** An entry of [session_history]. *)
Record history_entry : Type := {
  entry_session_id : string;
  entry_start_time : Z;
  entry_topics : list string;
  entry_difficulty : string
}.

(** The mutable attributes reachable from a [DSATutorSystem]: the
    teacher's, the hint agent's [hint_history], and its own.  The
    knowledge base, the question generator and the evaluator hold no
    attribute that any method assigns. *)
Record DSATutorSystem : Type := {
  teacher : TeacherAgent.state;
  hint_history : gmap string Z;
  current_student : option string;
  session_history : list history_entry
}.

(** [self.teacher.m(...)] *)
Definition in_teacher {A} (m : method TeacherAgent.state A)
  : method DSATutorSystem A := fun self =>
  let '(r, t) := m (teacher self) in
  (r, {| teacher := t;
         hint_history := hint_history self;
         current_student := current_student self;
         session_history := session_history self |}).

(** [self.hint_agent.m(...)] *)
Definition in_hint_agent {A} (m : method (gmap string Z) A)
  : method DSATutorSystem A := fun self =>
  let '(r, h) := m (hint_history self) in
  (r, {| teacher := teacher self;
         hint_history := h;
         current_student := current_student self;
         session_history := session_history self |}).

(** The dict [get_student_progress] returns for a known student. *)
Record report : Type := {
  report_student_id : string;
  report_total_sessions : Z;
  average_mastery : Q;
  strong_areas : list string;
  weak_areas : list string;
  recommendations : list string
}.

(** The two shapes of dict [get_student_progress] returns:
    [{"error": ...}] and the report. *)
Inductive progress_result : Type :=
| ErrorDict (error : string)
| ReportDict (r : report).

(** A progress record read as the dict it is: the value under a key. *)
Inductive progress_value : Type :=
| Sessions (n : Z)
| Mastery (m : list (string * Q))
| Areas (l : list string)
| Path (l : list json).

Definition progress_lookup (pr : TeacherAgent.progress) (key : string)
  : option progress_value :=
  if String.eqb key "total_sessions" then Some (Sessions (TeacherAgent.total_sessions pr))
  else if String.eqb key "topics_mastery" then Some (Mastery (TeacherAgent.topics_mastery pr))
  else if String.eqb key "weak_areas" then Some (Areas (TeacherAgent.weak_areas pr))
  else if String.eqb key "learning_path" then Some (Path (TeacherAgent.learning_path pr))
  else None.

(** [progress.get(key, [])] where a list of topic names is expected. *)
Definition get_areas (pr : TeacherAgent.progress) (key : string) : list string :=
  match progress_lookup pr key with
  | Some (Areas l) => l
  | _ => []
  end.

Definition _generate_recommendations (pr : TeacherAgent.progress) : list string :=
  let recommendations := [] in
  let recommendations :=
    if TeacherAgent.total_sessions pr <? 3
    then (recommendations ++
          ["Complete more practice sessions to establish baseline"])%list
    else recommendations in
  let weak := get_areas pr "weak_areas" in
  let recommendations :=
    match weak with
    | _ :: _ =>
        (recommendations ++
         ["Focus on improving: " +:+ join ", " (firstn 3 weak)])%list
    | [] => recommendations
    end in
  let strong := get_areas pr "strong_areas" in
  let recommendations :=
    match strong with
    | first :: _ =>
        (recommendations ++
         ["Leverage your strength in " +:+ first +:+ " to tackle harder problems"])%list
    | [] => recommendations
    end in
  recommendations.

(** [round(x)] to the nearest integer, ties to even. *)
Definition round_half_even (q : Q) : Z :=
  let f := Qfloor q in
  match ((q - inject_Z f) ?= 1 # 2)%Q with
  | Lt => f
  | Gt => f + 1
  | Eq => if Z.even f then f else f + 1
  end.

(** [round(x, 1)], on the exact value. *)
Definition round1 (q : Q) : Q :=
  (inject_Z (round_half_even (q * 10)) / 10)%Q.

Definition get_student_progress (student_id : string)
  : method DSATutorSystem progress_result :=
  self ← get_self;
  match TeacherAgent.student_progress (teacher self) !! student_id with
  | None => mret (ErrorDict "Student not found")
  | Some progress =>
      let mastery := TeacherAgent.topics_mastery progress in
      (* Calculate overall mastery *)
      let total_mastery := fold_left Qplus (map snd mastery) 0%Q in
      let avg_mastery :=
        match mastery with
        | _ :: _ => (total_mastery / inject_Z (Z.of_nat (length mastery)))%Q
        | [] => 0%Q
        end in
      (* Identify strong and weak areas *)
      let strong_areas :=
        map fst (List.filter (fun tm => Qle_bool 70 (snd tm)) mastery) in
      let weak_areas :=
        map fst (List.filter (fun tm => negb (Qle_bool 50 (snd tm))) mastery) in
      mret (ReportDict
              {| report_student_id := student_id;
                 report_total_sessions := TeacherAgent.total_sessions progress;
                 average_mastery := round1 avg_mastery;
                 strong_areas := strong_areas;
                 weak_areas := weak_areas;
                 recommendations := _generate_recommendations progress |})
  end.

Section WithServices.
Variable llm : prompt -> outcome string.
Variable similarity_search : string -> outcome (list Document).
Variable json_loads : string -> option json.
(** [QuestionGeneratorAgent.generate_question]: it assigns no attribute
    of the system, and what it returns plays no part below. *)
Variable generate_question :
  string -> Difficulty -> option (list string) -> outcome json.

(** [uuid] and [teacher_now] are consumed by the teacher, [now] is the
    orchestrator's own [datetime.now()]. *)
Definition start_learning_session (uuid : string) (teacher_now now : Z)
    (student_id : string) (topics : list string) (difficulty : string)
  : method DSATutorSystem TeacherAgent.session_info :=
  difficulty_enum ← lift (Difficulty_of_value difficulty);
  session_info ←
    in_teacher (TeacherAgent.start_teaching_session llm similarity_search
                  uuid teacher_now student_id topics difficulty_enum);
  self ← get_self;
  set_self
    {| teacher := teacher self;
       hint_history := hint_history self;
       current_student := Some student_id;
       session_history :=
         (session_history self ++
          [{| entry_session_id := TeacherAgent.info_session_id session_info;
              entry_start_time := now;
              entry_topics := topics;
              entry_difficulty := difficulty |}])%list |};;
  mret session_info.

Definition generate_practice_question (topic : string) (difficulty : string)
    (weakness : option (list string)) : method DSATutorSystem json :=
  difficulty_enum ← lift (Difficulty_of_value difficulty);
  lift (generate_question topic difficulty_enum weakness).

(** [student_info.get(key) if student_info else None] *)
Definition info_get (student_info : option (gmap string string)) (key : string)
  : option string :=
  match student_info with
  | Some info => if decide (info = ∅) then None else info !! key
  | None => None
  end.

Definition get_hint (p : problem) (hint_level : Z)
    (student_info : option (gmap string string))
  : method DSATutorSystem HintAgent.hint_result :=
  let student_code := info_get student_info "code" in
  let student_approach := info_get student_info "approach" in
  in_hint_agent
    (HintAgent.get_progressive_hints llm p student_code student_approach hint_level).

Definition evaluate_solution (p : problem) (student_code : string)
    (explanation : option string) : method DSATutorSystem EvalAgent.evaluation :=
  lift (EvalAgent.evaluate_solution llm json_loads p student_code explanation).

End WithServices.

(** What [DSATutorSystem()] builds. *)
Definition new_system : DSATutorSystem :=
  {| teacher := {| TeacherAgent.student_progress := ∅;
                   TeacherAgent.current_session := None |};
     hint_history := ∅;
     current_student := None;
     session_history := [] |}.

End Orchestrator.

(** ** The specification's wording, and sample inputs *)

Module Spec.
Import EvalAgent.

(** The score as the specification words it: start at 0, add the four
    parts, clamp to [0,100]. *)
Definition spec_score (no_syntax_issues approach_correct : bool)
    (edge_cases positives : Z) : Z :=
  let total :=
    0 + (if no_syntax_issues then 20 else 0)
      + (if approach_correct then 40 else 0)
      + (if 2 <=? edge_cases then 20 else if edge_cases =? 1 then 10 else 0)
      + (if 2 <=? positives then 20 else if positives =? 1 then 10 else 0) in
  Z.max 0 (Z.min 100 total).

(** [d.get(key, default)] on the fields of a dict. *)
Definition field (key : string) (default : json) (fields : list (string * json))
  : json :=
  match assoc key fields with
  | Some v => v
  | None => default
  end.

Definition clean_report : syntax_report :=
  {| has_issues := false; issues := []; code_length := 40; line_count := 2 |}.

Definition two_edge_cases : list (string * json) :=
  [("approach_correct", JBool true);
   ("edge_cases_handled", JList [JStr "empty input"; JStr "single element"])].

Definition two_positives : list (string * json) :=
  [("positives", JList [JStr "clear naming"; JStr "linear time"])].

(** A model that never answers in JSON, and the decoder on such text. *)
Definition prose_model : prompt -> outcome string :=
  fun _ => Returned "Sure! Here is what I think about it.".

Definition no_json : string -> option json := fun _ => None.

Definition sample_problem : problem :=
  {| problem_id := Some "gen_0042";
     problem_fields := [("title", JStr "Two Sum")] |}.

(** [n] calls of [get_hint(problem)] in a row, none naming a level, and
    their results in order. *)
Fixpoint consecutive_hints (llm : prompt -> outcome string) (p : problem) (n : nat)
  : method Orchestrator.DSATutorSystem (list HintAgent.hint_result) :=
  match n with
  | O => mret []
  | S k =>
      r ← Orchestrator.get_hint llm p 0 None;
      rs ← consecutive_hints llm p k;
      mret (r :: rs)
  end.

(** The generator [get_progressive_hints] picks for a level. *)
Definition generator (llm : prompt -> outcome string) (p : problem)
    (student_code student_approach : option string) (level : Z) : outcome string :=
  if level =? 0 then HintAgent._get_level_0_hint llm p
  else if level =? 1 then HintAgent._get_level_1_hint llm p student_approach
  else if level =? 2 then HintAgent._get_level_2_hint llm p student_code
  else HintAgent._get_level_3_hint llm p.

(** The dict returned for a hint [text] served at [level]. *)
Definition served (text : string) (level : Z) : HintAgent.hint_result :=
  {| HintAgent.hint := text;
     HintAgent.hint_level := level;
     HintAgent.max_level := 3;
     HintAgent.next_level_available := level <? 3 |}.

(** A system that differs in the hint history only. *)
Definition with_hint_history (sys : Orchestrator.DSATutorSystem) (h : gmap string Z)
  : Orchestrator.DSATutorSystem :=
  {| Orchestrator.teacher := Orchestrator.teacher sys;
     Orchestrator.hint_history := h;
     Orchestrator.current_student := Orchestrator.current_student sys;
     Orchestrator.session_history := Orchestrator.session_history sys |}.

Definition unidentified_problem : problem :=
  {| problem_id := None; problem_fields := [] |}.

(** A vector store with nothing in it, and a question generator that
    hands back an empty problem. *)
Definition no_documents : string -> outcome (list Document) :=
  fun _ => Returned [].

Definition blank_question : string -> Difficulty -> option (list string) -> outcome json :=
  fun _ _ _ => Returned (JObj []).

(** The system after one [start_learning_session("alice_123", ["Arrays"],
    "Easy")] on a new system. *)
Definition after_first_session : Orchestrator.DSATutorSystem :=
  snd (Orchestrator.start_learning_session prose_model no_documents
         "3f2b8c1e-7a4d-4e0b-9c55-0d6e1f2a9b10" 1000 1001
         "alice_123" ["Arrays"] "Easy" Orchestrator.new_system).

(** One call of a caller-facing operation, with any arguments and any
    behaviour of the services, or a press of the "Reset Hints" button of
    [main.py] ([tutor.hint_agent.hint_history = {}]). *)
Inductive step (sys : Orchestrator.DSATutorSystem) : Orchestrator.DSATutorSystem -> Prop :=
| step_start_session llm search uuid teacher_now now student_id topics difficulty :
    step sys (snd (Orchestrator.start_learning_session llm search uuid teacher_now now
                     student_id topics difficulty sys))
| step_generate_question generate_question topic difficulty weakness :
    step sys (snd (Orchestrator.generate_practice_question generate_question
                     topic difficulty weakness sys))
| step_get_hint llm p hint_level student_info :
    step sys (snd (Orchestrator.get_hint llm p hint_level student_info sys))
| step_evaluate llm json_loads p code explanation :
    step sys (snd (Orchestrator.evaluate_solution llm json_loads p code explanation sys))
| step_get_progress student_id :
    step sys (snd (Orchestrator.get_student_progress student_id sys))
| step_reset_hints :
    step sys (with_hint_history sys ∅).

(** The states a tutor system can be in. *)
Inductive reachable : Orchestrator.DSATutorSystem -> Prop :=
| reachable_new : reachable Orchestrator.new_system
| reachable_step sys sys' : reachable sys -> step sys sys' -> reachable sys'.

(** Every stored progress record still has the mastery map and the empty
    [weak_areas] it was created with, and counts at least one session. *)
Definition records_as_created (sys : Orchestrator.DSATutorSystem) : Prop :=
  forall id pr,
    TeacherAgent.student_progress (Orchestrator.teacher sys) !! id = Some pr ->
    TeacherAgent.topics_mastery pr = map (fun t => (t, 0%Q)) Topic_values /\
    TeacherAgent.weak_areas pr = [] /\
    1 <= TeacherAgent.total_sessions pr.

End Spec.
Import Spec.

(** ** The remaining prompt templates

    As [prompt], for the methods below. *)

Inductive more_prompt : Type :=
| Socratic (p : problem) (student_question : string)
| StuckPoint (p : problem) (student_actions : list string)
| Comparison (student_code optimal_solution : string)
| MultipleChoice (concept topic : string) (num_options : Z)
| Variation (original : json) (difficulty : string)
| NewQuestion (difficulty topic context weakness_context : string).

(** ** The hint agent, continued ([agents/hintAgent.py]) *)

Module HintAnalysis.

(** The dict [analyze_stuck_point] returns. *)
Record stuck_report : Type := {
  analysis : string;
  suggestion : string;
  likely_stuck_point : string
}.

Definition INPUT_FORMAT := "Understanding input format".
Definition OUTPUT_FORMAT := "Understanding output format".
Definition ITERATION := "Implementing iteration logic".
Definition EDGE_CASES := "Handling edge cases".
Definition DATA_STRUCTURE := "Choosing appropriate data structure".
Definition REQUIREMENTS := "Understanding problem requirements".

(** [any(word in text for word in words)] *)
Definition any_in (words : list string) (text : string) : bool :=
  existsb (fun word => contains word text) words.

Definition _identify_stuck_point (actions : list string) : string :=
  let action_text := lower (join " " actions) in
  if any_in ["input"; "read"; "parse"] action_text then INPUT_FORMAT
  else if any_in ["output"; "print"; "return"] action_text then OUTPUT_FORMAT
  else if any_in ["loop"; "iterate"; "for"; "while"] action_text then ITERATION
  else if any_in ["condition"; "if"; "else"] action_text then EDGE_CASES
  else if any_in ["data structure"; "list"; "dict"; "set"] action_text
  then DATA_STRUCTURE
  else REQUIREMENTS.

Definition NO_SUGGESTION :=
  "Review the problem constraints and consider edge cases.".

(** The test of the loop of [_extract_suggestion]. *)
Definition suggests (line : string) : bool :=
  contains "suggestion" (lower line) || contains "try" (lower line)
  || contains "should" (lower line).

(** The loop of [_extract_suggestion]: the first line that passes returns. *)
Fixpoint first_suggestion (lines : list string) : option string :=
  match lines with
  | [] => None
  | line :: rest =>
      if suggests line then Some (strip line) else first_suggestion rest
  end.

Definition _extract_suggestion (analysis : string) : string :=
  match first_suggestion (split "010"%char analysis) with
  | Some line => line
  | None => NO_SUGGESTION
  end.

Section WithModel.
Variable llm : more_prompt -> outcome string.

Definition get_socratic_hint (p : problem) (student_question : string)
  : outcome string :=
  llm (Socratic p student_question).

Definition analyze_stuck_point (p : problem) (student_actions : list string)
  : outcome stuck_report :=
  content ← llm (StuckPoint p student_actions);
  mret {| analysis := content;
          suggestion := _extract_suggestion content;
          likely_stuck_point := _identify_stuck_point student_actions |}.

End WithModel.

End HintAnalysis.

(** ** More sample inputs *)

Module Samples.

(** A model whose every request fails. *)
Definition failing_model : prompt -> outcome string :=
  fun _ => Raised ExternalError.

Definition other_problem : problem :=
  {| problem_id := Some "gen_0007";
     problem_fields := [("title", JStr "Valid Parentheses")] |}.

Definition for_loop_actions : list string :=
  ["tried using a for loop"; "got confused"].

Definition shouting_actions : list string :=
  ["I cannot PARSE the first line"; "then I wrote a while loop"].

End Samples.
Import Samples.

(** ** More sample replies *)

Module Replies.

(** A model that praises every solution in well-formed JSON, and a decoder
    that knows its two replies. *)
Definition quoted (s : string) : string :=
  String "034"%char s +:+ String "034"%char "".

Definition GOOD_ASSESSMENT : string :=
  "{" +:+ quoted "approach_correct" +:+ ": true, "
      +:+ quoted "edge_cases_handled" +:+ ": ["
      +:+ quoted "empty" +:+ ", " +:+ quoted "single" +:+ "]}".

Definition GOOD_FEEDBACK : string :=
  "{" +:+ quoted "positives" +:+ ": ["
      +:+ quoted "clear" +:+ ", " +:+ quoted "fast" +:+ "], "
      +:+ quoted "improvements_needed" +:+ ": [" +:+ quoted "naming" +:+ "]}".

Definition praising_model : prompt -> outcome string := fun pr =>
  match pr with
  | ConceptualTests _ _ => Returned GOOD_ASSESSMENT
  | Feedback _ _ _ _ => Returned GOOD_FEEDBACK
  | _ => Returned "no JSON here"
  end.

Definition two_replies : string -> option json := fun content =>
  if String.eqb content GOOD_ASSESSMENT then
    Some (JObj [("approach_correct", JBool true);
                ("edge_cases_handled", JList [JStr "empty"; JStr "single"])])
  else if String.eqb content GOOD_FEEDBACK then
    Some (JObj [("positives", JList [JStr "clear"; JStr "fast"]);
                ("improvements_needed", JList [JStr "naming"])])
  else None.

Definition importing_code : string :=
  "import math" +:+ nl +:+ "def area(r):" +:+ nl +:+ "    return math.pi * r * r".

Definition plain_code : string :=
  "def area(r):" +:+ nl +:+ "    return 3.14159 * r * r".

Definition two_improvements : json :=
  JObj [("improvements_needed",
         JList [JStr "naming"; JStr "a CRITICAL off-by-one"])].

End Replies.
Import Replies.

(** ** The orchestrator, continued ([orchestrator.py]) *)

Module LearningPath.

(** The four dicts one round of the loop of [generate_learning_path]
    appends. *)
Definition path_entries (topic : string) : list json :=
  [ (* Start with concepts *)
    JObj [("type", JStr "concept");
          ("topic", JStr topic);
          ("title", JStr ("Introduction to " +:+ topic));
          ("duration", JStr "15-20 minutes");
          ("resources", JList [JStr "Concept explanation"; JStr "Visual examples"])];
    (* Add easy problem *)
    JObj [("type", JStr "problem");
          ("topic", JStr topic);
          ("difficulty", JStr "Easy");
          ("title", JStr ("Basic " +:+ topic +:+ " Practice"));
          ("estimated_time", JStr "20-30 minutes")];
    (* Add medium problem *)
    JObj [("type", JStr "problem");
          ("topic", JStr topic);
          ("difficulty", JStr "Medium");
          ("title", JStr ("Intermediate " +:+ topic +:+ " Challenge"));
          ("estimated_time", JStr "30-45 minutes")];
    (* Add review *)
    JObj [("type", JStr "review");
          ("topic", JStr topic);
          ("title", JStr (topic +:+ " Review & Common Patterns"));
          ("duration", JStr "10-15 minutes")] ].

Definition generate_learning_path (topics : list string) (current_skill : string)
  : list json :=
  fold_left (fun learning_path topic => (learning_path ++ path_entries topic)%list)
            topics [].

End LearningPath.

(** The entry a successful [start_learning_session] appends to
    [session_history]. *)
Definition started_entry (uuid : string) (now : Z) (topics : list string)
    (difficulty : string) : Orchestrator.history_entry :=
  {| Orchestrator.entry_session_id := uuid;
     Orchestrator.entry_start_time := now;
     Orchestrator.entry_topics := topics;
     Orchestrator.entry_difficulty := difficulty |}.

(** The progress record of a student after one more session start. *)
Definition counted (before : option TeacherAgent.progress) : TeacherAgent.progress :=
  TeacherAgent.count_session (default TeacherAgent.fresh_progress before).



(** A model that answers the hint prompts and no other. *)
Definition hints_only_model : prompt -> outcome string := fun pr =>
  match pr with
  | HintLevel0 _ | HintLevel1 _ _ | HintLevel2 _ _ | HintLevel3 _ =>
      Returned "Think about a hash map."
  | _ => Raised ExternalError
  end.

(** ** The question generator ([agents/QGenAgent.py]) *)

Module QuestionGenerator.

(** [d[key]] on a JSON value with a [str] key. *)
Definition getitem (d : json) (key : string) : outcome json :=
  match d with
  | JObj fields =>
      match assoc key fields with
      | Some v => Returned v
      | None => Raised KeyError
      end
  | _ => Raised TypeError
  end.

(** [d[key] = v]; only a dict takes a [str] key. *)
Definition setitem (d : json) (key : string) (v : json) : outcome json :=
  match d with
  | JObj fields => Returned (JObj (EvalAgent.setitem key v fields))
  | _ => Raised TypeError
  end.

(** [v[:n]] *)
Definition slice_to (n : nat) (v : json) : outcome json :=
  match v with
  | JStr s => Returned (JStr (Py.take n s))
  | JList l => Returned (JList (firstn n l))
  | _ => Raised TypeError
  end.

(** The decimal digit for [n mod 10]. *)
Definition digit (n : Z) : ascii := ascii_of_nat (48 + Z.to_nat (n mod 10)).

(** The decimal digits of [n >= 0], most significant first. *)
Fixpoint decimal_go (fuel : nat) (n : Z) (acc : string) : string :=
  match fuel with
  | O => acc
  | S fuel' =>
      let acc := String (digit n) acc in
      if n / 10 =? 0 then acc else decimal_go fuel' (n / 10) acc
  end.

Definition decimal (n : Z) : string := decimal_go (S (Z.to_nat (Z.log2 n))) n "".

Fixpoint zeros (k : nat) : string :=
  match k with
  | O => ""
  | S k' => String "0"%char (zeros k')
  end.

(** [f"{n:04d}"]: sign first, then zeros up to a width of four. *)
Definition format_04d (n : Z) : string :=
  if n <? 0 then
    let digits := decimal (- n) in
    "-" +:+ zeros (3 - String.length digits) +:+ digits
  else
    let digits := decimal n in
    zeros (4 - String.length digits) +:+ digits.

Definition _create_fallback_problem (uuid now_iso : string)
    (topic : string) (difficulty : Difficulty) (content : string) : json :=
  JObj [("id", JStr ("fallback_" +:+ Py.take 8 uuid));
        ("title", JStr (topic +:+ " Problem"));
        ("description", JStr (Py.take 500 content));
        ("topic", JStr topic);
        ("difficulty", JStr (Difficulty_value difficulty));
        ("input_format", JStr "Standard input format");
        ("output_format", JStr "Standard output format");
        ("constraints", JStr "1 <= n <= 10^5");
        ("examples", JList [JObj [("input", JStr "Sample input");
                                  ("output", JStr "Sample output")]]);
        ("hints", JList [JStr "Think about the core concept";
                         JStr "Consider edge cases"]);
        ("generated_at", JStr now_iso)].

Definition _create_fallback_mcq (concept topic : string) : json :=
  JObj [("question",
         JStr ("What is the key characteristic of " +:+ concept +:+ " in "
               +:+ topic +:+ "?"));
        ("options", JList [JStr "Option A - Basic property";
                           JStr "Option B - Advanced property";
                           JStr "Option C - Common misconception";
                           JStr "Option D - Correct characteristic"]);
        ("correct_answer", JInt 3);
        ("explanations", JList [JStr "A is too basic";
                                JStr "B is incorrect";
                                JStr "C is wrong";
                                JStr "D correctly describes the concept"]);
        ("concept", JStr concept);
        ("topic", JStr topic)].

Section WithServices.
Variable llm : more_prompt -> outcome string.
Variable json_loads : string -> option json.
Variable similarity_search : string -> outcome (list Document).

(** [uuid], [now_iso] and [hash_of] are what [uuid.uuid4()],
    [datetime.now().isoformat()] and [hash(str(problem))] give during the
    call. *)
Definition generate_question (uuid now_iso : string) (hash_of : json -> Z)
    (topic : string) (difficulty : Difficulty)
    (student_weakness : option (list string)) : outcome json :=
  docs ← query similarity_search
           (Difficulty_value difficulty +:+ " problem about " +:+ topic) topic;
  let weakness_context :=
    match student_weakness with
    | Some (w :: ws) =>
        nl +:+ "Focus on these student weaknesses: " +:+ join ", " (w :: ws)
    | _ => ""
    end in
  let context :=
    match docs with
    | d :: _ => Py.take 1000 (page_content d)
    | [] => "General DSA problem"
    end in
  content ← llm (NewQuestion (Difficulty_value difficulty) topic context
                   weakness_context);
  match json_loads content with
  | Some problem =>
      (* Add metadata *)
      problem ← setitem problem "topic" (JStr topic);
      problem ← setitem problem "difficulty" (JStr (Difficulty_value difficulty));
      problem ← setitem problem "generated_at" (JStr now_iso);
      setitem problem "id"
        (JStr ("gen_" +:+ format_04d (hash_of problem mod 10000)))
  | None =>
      (* Fallback to structured generation *)
      mret (_create_fallback_problem uuid now_iso topic difficulty content)
  end.

Definition generate_multiple_choice (concept topic : string) (num_options : Z)
  : outcome json :=
  content ← llm (MultipleChoice concept topic num_options);
  mret (match json_loads content with
        | Some mcq =>
            match (mcq ← setitem mcq "concept" (JStr concept);
                   setitem mcq "topic" (JStr topic)) with
            | Returned mcq => mcq
            | Raised _ => _create_fallback_mcq concept topic
            end
        | None => _create_fallback_mcq concept topic
        end).

End WithServices.

Section Variations.
(** The model's answer to the request of round [i]: the same prompt may
    be answered differently each time. *)
Variable llm_at : nat -> more_prompt -> outcome string.
Variable json_loads : string -> option json.

(** The [try] block of one round of [generate_variations]. *)
Definition tagged_variation (base_problem : json) (i : nat) (content : string)
  : outcome json :=
  match json_loads content with
  | Some variation =>
      original_id ← getitem base_problem "id";
      variation ← setitem variation "original_id" original_id;
      variation ← setitem variation "is_variation" (JBool true);
      setitem variation "variation_type"
        (JStr (if Nat.even i then "easier" else "harder"))
  | None => Raised ValueError
  end.

(** One round of the loop: what it appends. *)
Definition variation_round (base_problem : json) (i : nat) : outcome (list json) :=
  let difficulty :=
    if Nat.even i
    then "Easier variation: Simplify constraints or requirements"
    else "Harder variation: Add constraints or requirements" in
  description ← getitem base_problem "description";
  excerpt ← slice_to 500 description;
  content ← llm_at i (Variation excerpt difficulty);
  mret (match tagged_variation base_problem i content with
        | Returned variation => [variation]
        | Raised _ => []
        end).

Definition generate_variations (base_problem : json) (num_variations : Z)
  : outcome (list json) :=
  rounds ← mapM (variation_round base_problem) (seq 0 (Z.to_nat num_variations));
  mret (concat rounds).

End Variations.

End QuestionGenerator.

(** ** Sample questions *)

Module Questions.

Definition LIST_REPLY : string := "[1, 2, 3]".

Definition GOOD_QUESTION : string :=
  "{" +:+ quoted "title" +:+ ": " +:+ quoted "Rotate Array" +:+ ", "
      +:+ quoted "topic" +:+ ": " +:+ quoted "Graphs" +:+ "}".

(** A model that answers question requests with an object, multiple-choice
    requests with a list and variation requests with prose. *)
Definition quiz_model : more_prompt -> outcome string := fun pr =>
  match pr with
  | NewQuestion _ _ _ _ => Returned GOOD_QUESTION
  | MultipleChoice _ _ _ => Returned LIST_REPLY
  | _ => Returned "Here is a variation for you."
  end.

(** A model that answers every request with a list. *)
Definition listing_model : more_prompt -> outcome string :=
  fun _ => Returned LIST_REPLY.

Definition quiz_decoder : string -> option json := fun content =>
  if String.eqb content GOOD_QUESTION then
    Some (JObj [("title", JStr "Rotate Array"); ("topic", JStr "Graphs")])
  else if String.eqb content LIST_REPLY then
    Some (JList [JInt 1; JInt 2; JInt 3])
  else None.

(** A model that answers every variation request with the same object. *)
Definition varying_model : nat -> more_prompt -> outcome string :=
  fun _ _ => Returned GOOD_QUESTION.

Definition stored_problem : json :=
  JObj [("id", JStr "two_sum");
        ("description", JStr "Given an array of integers, return two indices.")].

Definition anonymous_problem : json :=
  JObj [("description", JStr "Given an array of integers, return two indices.")].

End Questions.
Import Questions.

(** A variation of [base_problem], tagged as [generate_variations] tags
    it. *)
Definition tagged_for (base_problem : json) (v : json) : Prop :=
  exists fields base_id,
    v = JObj fields /\
    QuestionGenerator.getitem base_problem "id" = Returned base_id /\
    assoc "original_id" fields = Some base_id /\
    assoc "is_variation" fields = Some (JBool true) /\
    (assoc "variation_type" fields = Some (JStr "easier") \/
     assoc "variation_type" fields = Some (JStr "harder")).

(** ** Configuration ([config.py]) *)

Module Config.

Definition GROQ_MODEL : string := "mixtral-8x7b-32768".
Definition OPENAI_MODEL : string := "gpt-4".
(** [MODEL_TEMPERATURE = 0.7], kept as the decimal it is written as. *)
Definition MODEL_TEMPERATURE : Q := 7 # 10.
Definition PLACEHOLDER_KEY : string := "gsk_your_api_key_here".

(** The dict [get_model_config] returns. *)
Record model_config : Type := {
  provider : string;
  model : string;
  api_key : string;
  temperature : Q
}.

(** [bool(key)] for what [os.getenv] gave: set, and not empty. *)
Definition is_set (key : option string) : bool :=
  match key with
  | Some k => negb (String.length k =? 0)%nat
  | None => false
  end.

(** [key == PLACEHOLDER_KEY] *)
Definition is_placeholder (key : option string) : bool :=
  match key with
  | Some k => String.eqb k PLACEHOLDER_KEY
  | None => false
  end.

Definition KEY_WARNING : string :=
  "Groq API key not set. Get a free key from: https://console.groq.com/keys".

Section Environment.
(** [os.getenv("GROQ_API_KEY")] and [os.getenv("OPENAI_API_KEY", None)],
    read when the module is imported. *)
Variable GROQ_API_KEY : option string.
Variable OPENAI_API_KEY : option string.

Definition validate_config : list string :=
  let warnings := [] in
  (* Check API key *)
  let warnings :=
    if is_placeholder GROQ_API_KEY || negb (is_set GROQ_API_KEY)
    then (warnings ++ [KEY_WARNING])%list else warnings in
  (* Check model selection *)
  let warnings :=
    if negb (existsb (String.eqb GROQ_MODEL)
               ["llama3-8b-8192"; "llama3-70b-8192"; "mixtral-8x7b-32768"])
    then (warnings ++ ["Unknown Groq model: " +:+ GROQ_MODEL])%list
    else warnings in
  warnings.

Definition get_model_config : outcome model_config :=
  if is_set GROQ_API_KEY && negb (is_placeholder GROQ_API_KEY) then
    Returned {| provider := "groq";
                model := GROQ_MODEL;
                api_key := default "" GROQ_API_KEY;
                temperature := MODEL_TEMPERATURE |}
  else if is_set OPENAI_API_KEY then
    Returned {| provider := "openai";
                model := OPENAI_MODEL;
                api_key := default "" OPENAI_API_KEY;
                temperature := MODEL_TEMPERATURE |}
  else Raised ValueError.

End Environment.

End Config.

(** ** The teacher agent, continued ([agents/teacherAgent.py]) *)

Inductive teacher_prompt : Type :=
| Explain (concept topic student_level context : string)
| Visual (concept topic : string)
| KeyPoints (explanation : string)
| Related (topic concept context : string).

Module Explanations.

(** The dict [explain_concept] returns. *)
Record explanation_result : Type := {
  explanation : string;
  key_points : json;
  visual_prompt : option string;
  related_concepts : json
}.

(** The lines the fallback of [_extract_key_points] keeps. *)
Definition long_line (line : string) : bool :=
  negb (String.length (strip line) =? 0)%nat
  && (20 <? String.length (strip line))%nat.

Definition fallback_key_points (explanation : string) : list string :=
  firstn 5 (map strip (List.filter long_line (split "010"%char explanation))).

Section WithServices.
Variable llm : teacher_prompt -> outcome string.
Variable json_loads : string -> option json.
Variable similarity_search : string -> outcome (list Document).

Definition _generate_visual_prompt (concept topic : string) : outcome string :=
  llm (Visual concept topic).

Definition _extract_key_points (explanation : string) : outcome json :=
  content ← llm (KeyPoints explanation);
  mret (match json_loads content with
        | Some v => v
        | None => JList (map JStr (fallback_key_points explanation))
        end).

Definition _get_related_concepts (topic concept : string) : outcome json :=
  docs ← query similarity_search
           ("Concepts related to " +:+ concept +:+ " in " +:+ topic) topic;
  let context :=
    match docs with
    | d :: _ => Py.take 500 (page_content d)
    | [] => ""
    end in
  content ← llm (Related topic concept context);
  mret (match json_loads content with
        | Some v => v
        | None => JList []
        end).

Definition explain_concept (concept topic student_level : string)
  : outcome explanation_result :=
  (* Retrieve relevant knowledge *)
  docs ← query similarity_search
           ("Explain " +:+ concept +:+ " in " +:+ topic) topic;
  let context :=
    match docs with
    | d :: _ => Py.take 1000 (page_content d)
    | [] => "No specific context"
    end in
  (* Generate explanation *)
  content ← llm (Explain concept topic student_level context);
  (* Generate visual representation prompt if applicable *)
  visual_prompt ←
    (if existsb (String.eqb topic) ["Trees"; "Graphs"; "Linked Lists"]
     then (v ← _generate_visual_prompt concept topic; mret (Some v))
     else mret None);
  key_points ← _extract_key_points content;
  related_concepts ← _get_related_concepts topic concept;
  mret {| explanation := content;
          key_points := key_points;
          visual_prompt := visual_prompt;
          related_concepts := related_concepts |}.

End WithServices.

End Explanations.

Definition stack_text : string :=
  "A stack is like a pile of plates in a cafeteria." +:+ nl +:+ "Short line.".

(** Sample explanation services. *)
Definition lecturing_model : teacher_prompt -> outcome string := fun pr =>
  match pr with
  | Explain _ _ _ _ =>
      Returned ("A stack is like a pile of plates in a cafeteria." +:+ nl +:+
                "Short line." +:+ nl +:+
                "   Push and pop both take constant time.   ")
  | _ => Returned "I would rather not use JSON."
  end.

(** Every stored hint level is at least 0. *)
Definition levels_from_zero (sys : Orchestrator.DSATutorSystem) : Prop :=
  forall key level, Orchestrator.hint_history sys !! key = Some level -> 0 <= level.

(** A model that answers each hint tier with a text of its own, and no
    other request. *)
Definition tiered_model : prompt -> outcome string := fun pr =>
  match pr with
  | HintLevel0 _ => Returned "Which data structure gives fast lookups?"
  | HintLevel1 _ _ => Returned "Split the task: first find the complement."
  | HintLevel2 _ _ => Returned "Look at what your loop does on a repeated value."
  | HintLevel3 _ => Returned "Use a hash map from value to index: O(n) time and space."
  | _ => Raised ExternalError
  end.

(** A model that answers multiple-choice requests with text that is no
    JSON. *)
Definition chatty_quiz_model : more_prompt -> outcome string := fun pr =>
  match pr with
  | MultipleChoice _ _ _ => Returned "Happy to help with a quiz!"
  | _ => Raised ExternalError
  end.

(** * Properties *)

(** ** Substring tests *)

Section Strings.

Lemma prefix_spec (n h : string) :
  String.prefix n h = true <-> exists b, h = n +:+ b.
Proof.
  revert n. induction h as [|d h IH]; intros [|c n]; simpl.
  - split; [intros _; exists ""; reflexivity | reflexivity].
  - split; [discriminate | intros [b Hb]; discriminate].
  - split; [intros _; exists (String d h); reflexivity | reflexivity].
  - destruct (ascii_dec c d) as [->|Hne].
    + rewrite IH. split; intros [b Hb]; exists b; [now rewrite Hb | now injection Hb].
    + split; [discriminate | intros [b Hb]; injection Hb; congruence].
Qed.

(** [contains] is Python's [in] on strings: the needle occurs somewhere. *)
Lemma contains_spec (n h : string) :
  contains n h = true <-> exists a b, h = a +:+ n +:+ b.
Proof.
  induction h as [|c h IH].
  - cbn [contains]. rewrite orb_false_r, prefix_spec. split.
    + intros [b Hb]. exists "", b. exact Hb.
    + intros [a [b Hb]]. destruct a; [|discriminate]. exists b. exact Hb.
  - cbn [contains]. rewrite orb_true_iff, prefix_spec, IH. split.
    + intros [[b Hb]|[a [b Hb]]].
      * exists "", b. exact Hb.
      * exists (String c a), b. simpl. now rewrite Hb.
    + intros [a [b Hb]]. destruct a as [|c' a].
      * left. exists b. exact Hb.
      * right. exists a, b. simpl in Hb. now injection Hb.
Qed.

End Strings.

(** ** The static check *)

Section StaticCheck.
Import EvalAgent.

Lemma In_append_if (test : bool) (x y : string) (l : list string) :
  In y (append_if test x l) <-> In y l \/ (test = true /\ y = x).
Proof.
  unfold append_if. destruct test.
  - rewrite in_app_iff. simpl. intuition congruence.
  - intuition congruence.
Qed.

Lemma issue_names_differ :
  INCOMPLETE <> NO_DEFINITION /\ INCOMPLETE <> INFINITE_LOOP /\
  INCOMPLETE <> IMPORTS /\ NO_DEFINITION <> INFINITE_LOOP /\
  NO_DEFINITION <> IMPORTS /\ INFINITE_LOOP <> IMPORTS.
Proof. repeat split; discriminate. Qed.

(** C7, as the code has it.  For every code string the issue list holds
    the "incomplete" note iff the stripped code is shorter than 10
    characters, the "no definition" note iff neither ["def "] nor
    ["class "] occurs, the infinite-loop warning iff ["while True:"]
    occurs and ["break"] occurs nowhere, the imports note iff ["import "]
    occurs, and nothing else; [has_issues] holds iff the list is not
    empty.  The code ["x=1"], which is 3 characters long, gets exactly
    the incomplete and no-definition notes and [has_issues = true]. *)
Theorem check_syntax_flags (code : string) :
  let r := _check_syntax code in
  (In INCOMPLETE (issues r) <-> Z.of_nat (String.length (strip code)) < 10) /\
  (In NO_DEFINITION (issues r) <->
     contains "def " code = false /\ contains "class " code = false) /\
  (In INFINITE_LOOP (issues r) <->
     contains "while True:" code = true /\ contains "break" code = false) /\
  (In IMPORTS (issues r) <-> contains "import " code = true) /\
  (forall i, In i (issues r) ->
     i = INCOMPLETE \/ i = NO_DEFINITION \/ i = INFINITE_LOOP \/ i = IMPORTS) /\
  (has_issues r = true <-> issues r <> []) /\
  (let x := _check_syntax "x=1" in
   code_length x = 3 /\ issues x = [INCOMPLETE; NO_DEFINITION] /\
   has_issues x = true).
Proof.
  pose proof issue_names_differ as (N1 & N2 & N3 & N4 & N5 & N6).
  cbn zeta. unfold _check_syntax. cbn [issues has_issues code_length].
  repeat match goal with |- _ /\ _ => split end.
  all: try reflexivity.
  all: try (rewrite !In_append_if; cbn [In];
            rewrite ?andb_true_iff, ?negb_true_iff, ?Z.ltb_lt;
            intuition congruence).
  - intros i. rewrite !In_append_if. cbn [In]. intuition congruence.
  - split.
    + intros H. apply Z.ltb_lt in H. intros E. rewrite E in H. simpl in H. lia.
    + intros H. apply Z.ltb_lt.
      destruct (append_if _ _ _); [congruence | simpl; lia].
Qed.

(** C7 as it is worded fails on its example: ["x=1"] is not 8 characters
    long. *)
Lemma check_syntax_x1_not_8_chars :
  ~ (let x := _check_syntax "x=1" in
     code_length x = 8 /\ issues x = [INCOMPLETE; NO_DEFINITION] /\
     has_issues x = true).
Proof. cbn. intros [H _]. discriminate H. Qed.

End StaticCheck.

(** ** The score *)

Section Score.
Import EvalAgent.

Lemma spec_score_range (a b : bool) (e p : Z) : 0 <= spec_score a b e p <= 100.
Proof. unfold spec_score. cbn zeta. lia. Qed.

Lemma calculate_score_inversion (sc : syntax_report) (tr fb : json) (s : Z) :
  _calculate_score sc tr fb = Returned s ->
  exists trf fbf ne np,
    tr = JObj trf /\ fb = JObj fbf /\
    len (field "edge_cases_handled" (JList []) trf) = Returned ne /\
    len (field "positives" (JList []) fbf) = Returned np /\
    s = spec_score (negb (has_issues sc))
          (truthy (field "approach_correct" (JBool false) trf)) ne np.
Proof.
  unfold _calculate_score, spec_score, field.
  destruct tr as [| | | | | |trf]; try discriminate.
  destruct fb as [| | | | | |fbf];
    cbn [get mbind outcome_bind];
    destruct (len (match assoc "edge_cases_handled" trf with
                   | Some x => x | None => JList [] end)) as [ne|] eqn:Ee;
    cbn [mbind outcome_bind]; try discriminate.
  destruct (len (match assoc "positives" fbf with
                 | Some x => x | None => JList [] end)) as [np|] eqn:Ep;
    cbn [mbind outcome_bind mret outcome_ret]; try discriminate.
  intros [= <-]. exists trf, fbf, ne, np. repeat split; try assumption.
  destruct (has_issues sc), (truthy _), (2 <=? ne), (ne =? 1),
    (2 <=? np), (np =? 1); cbn; reflexivity.
Qed.

(** C2.  Whenever the assessment and the feedback are dicts whose
    edge-case and positives entries have a length, the score is 0, plus 20
    without syntax issues, plus 40 for a correct approach, plus 20/10/0
    for at least two / exactly one / no handled edge case, plus 20/10/0 for
    at least two / exactly one / no positive, clamped to [0,100].  No
    issues, a correct approach, two edge cases and two positives give
    exactly 100. *)
Theorem calculate_score_formula (sc : syntax_report)
    (trf fbf : list (string * json)) (ne np : Z) :
  len (field "edge_cases_handled" (JList []) trf) = Returned ne ->
  len (field "positives" (JList []) fbf) = Returned np ->
  _calculate_score sc (JObj trf) (JObj fbf) =
    Returned (spec_score (negb (has_issues sc))
                (truthy (field "approach_correct" (JBool false) trf)) ne np)
  /\ spec_score true true 2 2 = 100.
Proof.
  intros He Hp. split; [|reflexivity].
  unfold _calculate_score, spec_score, field in *.
  cbn [get mbind outcome_bind]. rewrite He. cbn [mbind outcome_bind].
  rewrite Hp. cbn [mbind outcome_bind mret outcome_ret]. f_equal.
  destruct (has_issues sc), (truthy _), (2 <=? ne), (ne =? 1),
    (2 <=? np), (np =? 1); cbn; reflexivity.
Qed.

Lemma calculate_score_formula_witness :
  len (field "edge_cases_handled" (JList []) two_edge_cases) = Returned 2 /\
  len (field "positives" (JList []) two_positives) = Returned 2 /\
  _calculate_score clean_report (JObj two_edge_cases) (JObj two_positives) =
    Returned 100.
Proof.
  split; [reflexivity | split; [reflexivity |]].
  exact (proj1 (calculate_score_formula clean_report two_edge_cases two_positives
                  2 2 eq_refl eq_refl)).
Defined.

End Score.

(** ** The evaluation pipeline *)

Section Evaluation.
Import EvalAgent.
Variable llm : prompt -> outcome string.
Variable json_loads : string -> option json.

Lemma calculate_score_range (sc : syntax_report) (tr fb : json) (s : Z) :
  _calculate_score sc tr fb = Returned s -> 0 <= s <= 100.
Proof.
  intros H. apply calculate_score_inversion in H
    as (trf & fbf & ne & np & _ & _ & _ & _ & ->).
  apply spec_score_range.
Qed.

(** C3.  Every evaluation that returns carries a score within [0,100] and
    a correctness flag equal to [score >= 70]. *)
Theorem evaluate_solution_score_range (p : problem) (code : string)
    (explanation : option string) (r : evaluation) :
  evaluate_solution llm json_loads p code explanation = Returned r ->
  0 <= score r <= 100 /\ correctness r = (70 <=? score r).
Proof.
  unfold evaluate_solution.
  destruct (_run_conceptual_tests llm json_loads p code) as [tr|];
    cbn [mbind outcome_bind]; [|discriminate].
  destruct (_generate_feedback llm json_loads p code explanation tr) as [fb|];
    cbn [mbind outcome_bind]; [|discriminate].
  destruct (_calculate_score (_check_syntax code) tr fb) as [s|] eqn:Es;
    cbn [mbind outcome_bind]; [|discriminate].
  destruct (_suggest_improvements llm json_loads code p fb) as [imp|];
    cbn [mbind outcome_bind mret outcome_ret]; [|discriminate].
  intros [= <-]. cbn [score correctness]. split; [|reflexivity].
  eapply calculate_score_range, Es.
Qed.

(** C4.  When the reply to the conceptual-assessment prompt does not decode
    as JSON, the step returns the fallback literal: approach not correct, no
    edge cases, both complexities "Unknown", one bug note "Could not parse
    evaluation".  It returns; it does not raise. *)
Theorem conceptual_tests_fallback (p : problem) (code content : string) :
  llm (ConceptualTests p code) = Returned content ->
  json_loads content = None ->
  _run_conceptual_tests llm json_loads p code =
    Returned (JObj [("approach_correct", JBool false);
                    ("edge_cases_handled", JList []);
                    ("time_complexity", JStr "Unknown");
                    ("space_complexity", JStr "Unknown");
                    ("potential_bugs", JList [JStr "Could not parse evaluation"])]).
Proof.
  intros Hllm Hjson. unfold _run_conceptual_tests, loads_or.
  rewrite Hllm. cbn [mbind outcome_bind]. rewrite Hjson. reflexivity.
Qed.

(** The pipeline does return when the model answers each prompt, whatever
    of its first two answers fails to decode. *)
Lemma evaluate_solution_returns_on_prose (p : problem) (code : string)
    (explanation : option string) :
  (forall pr, exists text, llm pr = Returned text /\ json_loads text = None) ->
  exists r,
    evaluate_solution llm json_loads p code explanation = Returned r /\
    test_results r = DEFAULT_TEST_RESULTS /\
    feedback r = DEFAULT_FEEDBACK /\
    score r = if has_issues (_check_syntax code) then 10 else 30.
Proof.
  intros Hllm. unfold evaluate_solution, _run_conceptual_tests, _generate_feedback,
    _suggest_improvements, loads_or.
  destruct (Hllm (ConceptualTests p code)) as (t1 & E1 & J1).
  rewrite E1. cbn [mbind outcome_bind mret outcome_ret]. rewrite J1.
  destruct (Hllm (Feedback p code (default "No explanation provided" (given explanation))
                    DEFAULT_TEST_RESULTS)) as (t2 & E2 & J2).
  rewrite E2. cbn [mbind outcome_bind mret outcome_ret]. rewrite J2.
  destruct (Hllm (Improvements code p)) as (t3 & E3 & J3).
  unfold _calculate_score. cbn -[_check_syntax firstn].
  rewrite E3. cbn -[_check_syntax firstn]. rewrite J3.
  eexists. split; [reflexivity|]. cbn -[_check_syntax].
  destruct (has_issues (_check_syntax code)); repeat split; reflexivity.
Qed.

End Evaluation.

Lemma evaluate_solution_score_range_witness :
  exists r,
    EvalAgent.evaluate_solution prose_model no_json sample_problem "x=1" None
      = Returned r /\
    (0 <= EvalAgent.score r <= 100 /\
     EvalAgent.correctness r = (70 <=? EvalAgent.score r)).
Proof.
  eexists. split; [reflexivity|].
  apply (evaluate_solution_score_range prose_model no_json sample_problem "x=1" None).
  reflexivity.
Defined.

Lemma conceptual_tests_fallback_witness :
  prose_model (ConceptualTests sample_problem "x=1")
    = Returned "Sure! Here is what I think about it." /\
  no_json "Sure! Here is what I think about it." = None /\
  EvalAgent._run_conceptual_tests prose_model no_json sample_problem "x=1"
    = Returned EvalAgent.DEFAULT_TEST_RESULTS.
Proof.
  split; [reflexivity | split; [reflexivity|]].
  exact (conceptual_tests_fallback prose_model no_json sample_problem "x=1"
           "Sure! Here is what I think about it." eq_refl eq_refl).
Defined.

(** ** Hint progression *)

Section Hints.
Import HintAgent.
Variable llm : prompt -> outcome string.

(** One call, run: the level served is the larger of the stored and the
    requested one, and the stored level becomes one more than that. *)
Lemma get_progressive_hints_run (p : problem) (code approach : option string)
    (lvl : Z) (h : gmap string Z) :
  let pid := default "unknown" (problem_id p) in
  let current := Z.max (default 0 (h !! pid)) lvl in
  get_progressive_hints llm p code approach lvl h =
    match generator llm p code approach current with
    | Returned text =>
        (Returned {| hint := text; hint_level := current; max_level := 3;
                     next_level_available := current <? 3 |},
         <[pid := current + 1]> h)
    | Raised e =>
        (Raised e, if decide (h !! pid = None) then <[pid := 0]> h else h)
    end.
Proof.
  cbn zeta. unfold get_progressive_hints, generator.
  unfold mbind, method_bind, get_self, set_self, lift, mret, method_ret, getitem.
  destruct (decide (h !! default "unknown" (problem_id p) = None)) as [E|E].
  - rewrite lookup_insert_eq, E. cbn [default from_option id].
    destruct (if Z.max 0 lvl =? 0 then _ else _); [|reflexivity].
    now rewrite insert_insert_eq.
  - destruct (h !! default "unknown" (problem_id p)) as [k|]; [|congruence].
    cbn [default from_option id].
    destruct (if Z.max k lvl =? 0 then _ else _); reflexivity.
Qed.

(** The stored level of a problem never goes down, whatever is asked and
    whether or not the model answers. *)
Lemma stored_level_never_decreases (p : problem) (code approach : option string)
    (lvl k : Z) (h : gmap string Z) :
  let pid := default "unknown" (problem_id p) in
  h !! pid = Some k ->
  exists k', snd (get_progressive_hints llm p code approach lvl h) !! pid = Some k'
             /\ k <= k'.
Proof.
  cbn zeta. intros Hk. rewrite get_progressive_hints_run, Hk. cbn [default from_option id].
  destruct (generator llm p code approach (Z.max k lvl)); cbn [snd].
  - exists (Z.max k lvl + 1). rewrite lookup_insert_eq. split; [reflexivity | lia].
  - exists k. rewrite decide_False by congruence. split; [exact Hk | lia].
Qed.

(** C6.  A request at level 3 or above sends the level-3 (near-solution)
    prompt to the model and no other: the call returns the model's answer to
    that prompt as the hint, and raises only if that request raises.  On a
    problem id never seen before the level reported is the requested one. *)
Theorem level3_request_is_served (p : problem) (code approach : option string)
    (lvl : Z) (h : gmap string Z) :
  3 <= lvl ->
  let pid := default "unknown" (problem_id p) in
  let current := Z.max (default 0 (h !! pid)) lvl in
  get_progressive_hints llm p code approach lvl h =
    match llm (HintLevel3 p) with
    | Returned text =>
        (Returned {| hint := text; hint_level := current; max_level := 3;
                     next_level_available := false |},
         <[pid := current + 1]> h)
    | Raised e =>
        (Raised e, if decide (h !! pid = None) then <[pid := 0]> h else h)
    end
  /\ (h !! pid = None -> current = lvl).
Proof.
  intros Hlvl. cbn zeta. split.
  - rewrite get_progressive_hints_run. unfold generator.
    set (current := Z.max _ lvl). assert (3 <= current) as Hc by (subst current; lia).
    destruct (Z.eqb_spec current 0); [lia|].
    destruct (Z.eqb_spec current 1); [lia|].
    destruct (Z.eqb_spec current 2); [lia|].
    destruct (Z.ltb_spec current 3); [lia|].
    unfold _get_level_3_hint. reflexivity.
  - intros ->. cbn [default from_option id]. lia.
Qed.

End Hints.

Lemma level3_request_is_served_witness :
  3 <= 5 /\
  HintAgent.get_progressive_hints tiered_model sample_problem None None 5 ∅ =
    (Returned {| HintAgent.hint :=
                   "Use a hash map from value to index: O(n) time and space.";
                 HintAgent.hint_level := 5;
                 HintAgent.max_level := 3;
                 HintAgent.next_level_available := false |},
     {["gen_0042" := 6]}) /\
  3 <= 3 /\
  HintAgent.get_progressive_hints tiered_model sample_problem None None 3 ∅ =
    (Returned {| HintAgent.hint :=
                   "Use a hash map from value to index: O(n) time and space.";
                 HintAgent.hint_level := 3;
                 HintAgent.max_level := 3;
                 HintAgent.next_level_available := false |},
     {["gen_0042" := 4]}).
Proof.
  split; [lia|]. split.
  - exact (proj1 (level3_request_is_served tiered_model sample_problem None None 5 ∅
                    ltac:(lia))).
  - split; [lia|].
    exact (proj1 (level3_request_is_served tiered_model sample_problem None None 3 ∅
                    ltac:(lia))).
Defined.

Section ConsecutiveHints.
Import HintAgent Orchestrator.
Variable text : string.
Variable p : problem.
Let llm : prompt -> outcome string := fun _ => Returned text.
Let pid : string := default "unknown" (problem_id p).

Lemma get_hint_answered (lvl : Z) (sys : DSATutorSystem) :
  get_hint llm p lvl None sys =
    let current := Z.max (default 0 (hint_history sys !! pid)) lvl in
    (Returned (served text current),
     with_hint_history sys (<[pid := current + 1]> (hint_history sys))).
Proof.
  unfold get_hint, in_hint_agent. cbn [info_get].
  rewrite get_progressive_hints_run. fold pid.
  unfold generator, _get_level_0_hint, _get_level_1_hint, _get_level_2_hint,
    _get_level_3_hint, llm.
  repeat match goal with |- context [if ?b then _ else _] => destruct b end;
    reflexivity.
Qed.

(** From a stored level [k], [n] calls without a level are served at
    [k], [k+1], ..., [k+n-1], and leave [k+n] stored. *)
Lemma consecutive_hints_from (n : nat) :
  forall (k : Z) (sys : DSATutorSystem),
    0 <= k ->
    hint_history sys !! pid = Some k ->
    consecutive_hints llm p n sys =
      (Returned (map (fun i => served text (k + Z.of_nat i)) (seq 0 n)),
       with_hint_history sys (<[pid := k + Z.of_nat n]> (hint_history sys))).
Proof.
  induction n as [|n IH]; intros k sys Hk Hs.
  - cbn. rewrite Z.add_0_r, insert_id by exact Hs. now destruct sys.
  - cbn [consecutive_hints]. unfold mbind at 1, method_bind.
    rewrite get_hint_answered, Hs. cbn [default from_option id].
    rewrite Z.max_l by lia.
    unfold mbind, method_bind.
    rewrite (IH (k + 1)); [| lia | cbn; apply lookup_insert_eq].
    unfold mret, method_ret. cbn [seq map]. f_equal.
    + rewrite Z.add_0_r. do 2 f_equal.
      rewrite <- seq_shift, map_map. apply map_ext. intros i.
      f_equal. lia.
    + unfold with_hint_history. cbn. rewrite insert_insert_eq.
      do 2 f_equal. lia.
Qed.

(** On a system that has served no hint yet, the [i]-th call without a
    level (counting from 0) reports level [i], for every [i]. *)
Lemma consecutive_hints_fresh (n : nat) :
  consecutive_hints llm p (S n) new_system =
    (Returned (map (fun i => served text (Z.of_nat i)) (seq 0 (S n))),
     with_hint_history new_system {[pid := Z.of_nat (S n)]}).
Proof.
  cbn [consecutive_hints]. unfold mbind at 1, method_bind.
  rewrite get_hint_answered. cbn [new_system hint_history].
  rewrite lookup_empty. cbn [default from_option id].
  change (Z.max 0 0) with 0. change (0 + 1) with 1.
  unfold mbind, method_bind.
  rewrite (consecutive_hints_from n 1); [| lia | cbn; apply lookup_insert_eq].
  unfold mret, method_ret. cbn [seq map]. f_equal.
  - do 2 f_equal. rewrite <- seq_shift, map_map. apply map_ext. intros i.
    f_equal. lia.
  - unfold with_hint_history. cbn. rewrite insert_insert_eq.
    replace (1 + Z.of_nat n) with (Z.of_nat (S n)) by lia. reflexivity.
Qed.

End ConsecutiveHints.

(** C1 at work.  Five calls of [get_hint] in a row for one problem, none
    naming a level, on a system that has served no hint yet: the levels
    reported are 0, 1, 2, 3 and then 4, next to a [max_level] of 3, and the
    level left in the hint history is 5. *)
Theorem hint_level_exceeds_max_level :
  exists results sys,
    consecutive_hints prose_model unidentified_problem 5 Orchestrator.new_system
      = (Returned results, sys) /\
    map HintAgent.hint_level results = [0; 1; 2; 3; 4] /\
    map HintAgent.max_level results = [3; 3; 3; 3; 3] /\
    Orchestrator.hint_history sys !! "unknown" = Some 5.
Proof.
  do 2 eexists. split.
  - unfold prose_model. apply consecutive_hints_fresh.
  - repeat split; reflexivity.
Qed.

(** ** Progress reports *)

Section Progress.
Import TeacherAgent Orchestrator.

Lemma get_student_progress_known (sys : DSATutorSystem) (id : string) (pr : progress) :
  student_progress (teacher sys) !! id = Some pr ->
  exists r, get_student_progress id sys = (Returned (ReportDict r), sys) /\
            report_student_id r = id /\
            report_total_sessions r = total_sessions pr /\
            recommendations r = _generate_recommendations pr.
Proof.
  intros H. unfold get_student_progress, mbind, method_bind, get_self.
  rewrite H. eexists. split; [reflexivity|]. repeat split.
Qed.

(** C8.  For a student id with no progress record, [get_student_progress]
    returns the dict [{"error": "Student not found"}]: a value, not a raise,
    and not a report. *)
Theorem unknown_student_is_not_found (sys : DSATutorSystem) (id : string) :
  student_progress (teacher sys) !! id = None ->
  get_student_progress id sys = (Returned (ErrorDict "Student not found"), sys)
  /\ forall r, fst (get_student_progress id sys) <> Returned (ReportDict r).
Proof.
  intros H. unfold get_student_progress, mbind, method_bind, get_self.
  rewrite H. split; [reflexivity | intros r; discriminate].
Qed.

(** The call returns for every id, and hands the system back as it got
    it. *)
Lemma get_student_progress_returns (sys : DSATutorSystem) (id : string) :
  exists res, get_student_progress id sys = (Returned res, sys).
Proof.
  unfold get_student_progress, mbind, method_bind, get_self.
  destruct (student_progress (teacher sys) !! id); eexists; reflexivity.
Qed.

(** C9.  [get_student_progress] is a read: for every student id, known or
    not, the system after the call is the system before it: progress map
    (session counts, mastery values), hint history, session history and
    current student. *)
Theorem get_student_progress_is_a_read (sys : DSATutorSystem) (id : string) :
  let after := snd (get_student_progress id sys) in
  after = sys /\
  student_progress (teacher after) = student_progress (teacher sys) /\
  hint_history after = hint_history sys /\
  session_history after = session_history sys.
Proof.
  destruct (get_student_progress_returns sys id) as [res ->].
  cbn. repeat split.
Qed.

(** No progress record has a ["strong_areas"] key, so the third rule of
    [_generate_recommendations] never fires. *)
Lemma no_strong_areas_key (pr : progress) : get_areas pr "strong_areas" = [].
Proof. reflexivity. Qed.

(** What the recommendations are, for every progress record: they follow
    the stored [weak_areas] entry, not the mastery values. *)
Lemma generate_recommendations_run (pr : progress) :
  _generate_recommendations pr =
    ((if total_sessions pr <? 3
      then ["Complete more practice sessions to establish baseline"] else []) ++
     match TeacherAgent.weak_areas pr with
     | _ :: _ => ["Focus on improving: " +:+ join ", " (firstn 3 (TeacherAgent.weak_areas pr))]
     | [] => []
     end)%list.
Proof.
  unfold _generate_recommendations. rewrite no_strong_areas_key.
  change (get_areas pr "weak_areas") with (TeacherAgent.weak_areas pr).
  destruct (total_sessions pr <? 3), (TeacherAgent.weak_areas pr); reflexivity.
Qed.

End Progress.

Lemma unknown_student_is_not_found_witness :
  TeacherAgent.student_progress (Orchestrator.teacher after_first_session) !! "bob_456"
    = None /\
  Orchestrator.get_student_progress "bob_456" after_first_session
    = (Returned (Orchestrator.ErrorDict "Student not found"), after_first_session).
Proof.
  split; [reflexivity|].
  exact (proj1 (unknown_student_is_not_found after_first_session "bob_456" eq_refl)).
Defined.

(** C5 at work.  After one session, every topic of the student has mastery
    0: the report lists all eleven topics as weak, and yet recommends only
    to complete more sessions; no recommendation names a weak topic. *)
Theorem recommendations_miss_weak_areas :
  exists r,
    Orchestrator.get_student_progress "alice_123" after_first_session
      = (Returned (Orchestrator.ReportDict r), after_first_session) /\
    Orchestrator.report_total_sessions r = 1 /\
    Orchestrator.weak_areas r = Topic_values /\
    Orchestrator.strong_areas r = [] /\
    Orchestrator.recommendations r =
      ["Complete more practice sessions to establish baseline"].
Proof.
  eexists. split; [reflexivity|]. repeat split; reflexivity.
Qed.

(** ** Sessions and difficulty *)

Section Sessions.
Import TeacherAgent Orchestrator.
Variable llm : prompt -> outcome string.
Variable similarity_search : string -> outcome (list Document).
Variable generate_question :
  string -> Difficulty -> option (list string) -> outcome json.

Lemma Difficulty_of_value_unknown (d : string) :
  d <> "Easy" -> d <> "Medium" -> d <> "Hard" ->
  Difficulty_of_value d = Raised ValueError.
Proof.
  intros H1 H2 H3. unfold Difficulty_of_value.
  apply String.eqb_neq in H1, H2, H3. now rewrite H1, H2, H3.
Qed.

Lemma Difficulty_of_value_known (d : Difficulty) :
  Difficulty_of_value (Difficulty_value d) = Returned d.
Proof. destruct d; reflexivity. Qed.

(** C10.  A difficulty string other than "Easy", "Medium" and "Hard" makes
    both [start_learning_session] and [generate_practice_question] raise
    [ValueError] to their caller, before anything is assigned: no session
    is started, no question is asked for, no default difficulty is used. *)
Theorem unknown_difficulty_raises (uuid : string) (teacher_now now : Z)
    (student_id topic : string) (topics : list string)
    (weakness : option (list string)) (d : string) (sys : DSATutorSystem) :
  d <> "Easy" -> d <> "Medium" -> d <> "Hard" ->
  start_learning_session llm similarity_search uuid teacher_now now
      student_id topics d sys = (Raised ValueError, sys)
  /\ generate_practice_question generate_question topic d weakness sys
      = (Raised ValueError, sys).
Proof.
  intros H1 H2 H3.
  unfold start_learning_session, generate_practice_question,
    mbind, method_bind, lift.
  rewrite (Difficulty_of_value_unknown d H1 H2 H3). split; reflexivity.
Qed.

(** The progress map a session start leaves behind, whether or not the
    plan and the welcome message come about afterwards. *)
Lemma start_teaching_session_table (uuid : string) (now : Z) (student_id : string)
    (topics : list string) (d : Difficulty) (st : state) :
  student_progress
    (snd (start_teaching_session llm similarity_search uuid now student_id topics d st))
  = alter count_session student_id
      (if decide (student_progress st !! student_id = None)
       then <[student_id := fresh_progress]> (student_progress st)
       else student_progress st).
Proof.
  unfold start_teaching_session, mbind, method_bind, get_self, set_self, lift.
  cbn [student_progress].
  destruct (_generate_learning_plan _ _ _); [|reflexivity].
  destruct (_generate_welcome_message _ _); reflexivity.
Qed.

Lemma start_learning_session_table (uuid : string) (teacher_now now : Z)
    (student_id : string) (topics : list string) (d : string) (sys : DSATutorSystem) :
  student_progress (teacher (snd (start_learning_session llm similarity_search
                                    uuid teacher_now now student_id topics d sys)))
  = match Difficulty_of_value d with
    | Returned _ =>
        alter count_session student_id
          (if decide (student_progress (teacher sys) !! student_id = None)
           then <[student_id := fresh_progress]> (student_progress (teacher sys))
           else student_progress (teacher sys))
    | Raised _ => student_progress (teacher sys)
    end.
Proof.
  unfold start_learning_session, mbind at 1, method_bind, lift.
  destruct (Difficulty_of_value d) as [de|]; [|reflexivity].
  unfold mbind at 1, method_bind, in_teacher.
  pose proof (start_teaching_session_table uuid teacher_now student_id topics de
                (teacher sys)) as Ht.
  destruct (start_teaching_session _ _ _ _ _ _ _ _) as [[info|e] st']; exact Ht.
Qed.

(** No session start changes a mastery map or a [weak_areas] entry. *)
Lemma start_learning_session_keeps_records (uuid : string) (teacher_now now : Z)
    (student_id : string) (topics : list string) (d : string) (sys : DSATutorSystem) :
  records_as_created sys ->
  records_as_created
    (snd (start_learning_session llm similarity_search uuid teacher_now now
            student_id topics d sys)).
Proof.
  intros Hinv id pr. rewrite start_learning_session_table.
  destruct (Difficulty_of_value d); [|apply Hinv].
  rewrite lookup_alter. destruct (decide (student_id = id)) as [->|Hne].
  - case_decide as Hnone.
    + rewrite lookup_insert_eq. intros [= <-]. cbn. repeat split. lia.
    + destruct (student_progress (teacher sys) !! id) as [pr0|] eqn:E; [|discriminate].
      intros [= <-]. destruct (Hinv id pr0 E) as (Hm & Hw & Hn).
      cbn. repeat split; [exact Hm | exact Hw | lia].
  - case_decide as Hnone.
    + rewrite lookup_insert_ne by exact Hne. apply Hinv.
    + apply Hinv.
Qed.

End Sessions.

Lemma unknown_difficulty_raises_witness :
  "Expert" <> "Easy" /\ "Expert" <> "Medium" /\ "Expert" <> "Hard" /\
  Orchestrator.start_learning_session prose_model no_documents
      "3f2b8c1e-7a4d-4e0b-9c55-0d6e1f2a9b10" 1000 1001
      "alice_123" ["Arrays"] "Expert" Orchestrator.new_system
    = (Raised ValueError, Orchestrator.new_system) /\
  Orchestrator.generate_practice_question blank_question "Arrays" "Expert" None
      Orchestrator.new_system
    = (Raised ValueError, Orchestrator.new_system).
Proof.
  assert ("Expert" <> "Easy") as H1 by discriminate.
  assert ("Expert" <> "Medium") as H2 by discriminate.
  assert ("Expert" <> "Hard") as H3 by discriminate.
  split; [exact H1 | split; [exact H2 | split; [exact H3 |]]].
  exact (unknown_difficulty_raises prose_model no_documents blank_question
           "3f2b8c1e-7a4d-4e0b-9c55-0d6e1f2a9b10" 1000 1001 "alice_123" "Arrays"
           ["Arrays"] None "Expert" Orchestrator.new_system H1 H2 H3).
Defined.

(** ** What every reachable state looks like *)

Section Reachable.
Import TeacherAgent Orchestrator.

Lemma step_keeps_records (sys sys' : DSATutorSystem) :
  step sys sys' -> records_as_created sys -> records_as_created sys'.
Proof.
  intros Hstep Hinv.
  destruct Hstep as [llm search uuid tnow now sid topics d | gq topic d weakness
                    | llm p lvl info | llm jl p code expl | sid |].
  - now apply start_learning_session_keeps_records.
  - unfold generate_practice_question, mbind, method_bind, lift.
    destruct (Difficulty_of_value _); exact Hinv.
  - unfold get_hint, in_hint_agent.
    destruct (HintAgent.get_progressive_hints _ _ _ _ _ _); exact Hinv.
  - exact Hinv.
  - destruct (get_student_progress_returns sys sid) as [res ->]. exact Hinv.
  - exact Hinv.
Qed.

Lemma reachable_records_as_created (sys : DSATutorSystem) :
  reachable sys -> records_as_created sys.
Proof.
  induction 1 as [|sys sys' _ IH Hstep].
  - intros id pr. cbn. now rewrite lookup_empty.
  - exact (step_keeps_records sys sys' Hstep IH).
Qed.

(** In every reachable state, the report of every known student lists all
    eleven topics as weak, none as strong, and recommends at most to
    complete more sessions. *)
Lemma reachable_report (sys : DSATutorSystem) (id : string) (pr : progress) :
  reachable sys ->
  student_progress (teacher sys) !! id = Some pr ->
  exists r,
    get_student_progress id sys = (Returned (ReportDict r), sys) /\
    Orchestrator.weak_areas r = Topic_values /\
    strong_areas r = [] /\
    recommendations r =
      if total_sessions pr <? 3
      then ["Complete more practice sessions to establish baseline"] else [].
Proof.
  intros Hreach Hpr.
  destruct (reachable_records_as_created sys Hreach id pr Hpr) as (Hm & Hw & _).
  unfold get_student_progress, mbind, method_bind, get_self. rewrite Hpr.
  eexists. split; [reflexivity|]. cbn [Orchestrator.weak_areas strong_areas recommendations].
  rewrite Hm, generate_recommendations_run, Hw, app_nil_r.
  repeat split; reflexivity.
Qed.

End Reachable.

(** ** More on strings *)

Section MoreStrings.

Lemma string_app_cons (x : ascii) (a b : string) :
  String x a +:+ b = String x (a +:+ b).
Proof. reflexivity. Qed.

Lemma string_app_assoc (a b c : string) : (a +:+ b) +:+ c = a +:+ (b +:+ c).
Proof.
  induction a as [|x a IH]; [reflexivity|].
  now rewrite !string_app_cons, IH.
Qed.

Lemma string_app_nil_r (a : string) : a +:+ "" = a.
Proof.
  induction a as [|x a IH]; [reflexivity|].
  now rewrite string_app_cons, IH.
Qed.

Lemma rev_app_spec (a b : string) : String.rev_app a b = String.rev a +:+ b.
Proof.
  unfold String.rev. revert b. induction a as [|x a IH]; intros b.
  - reflexivity.
  - cbn [String.rev_app].
    rewrite IH, (IH (String x "")), string_app_assoc. reflexivity.
Qed.

Lemma rev_cons (x : ascii) (a : string) :
  String.rev (String x a) = String.rev a +:+ String x "".
Proof. unfold String.rev at 1. cbn [String.rev_app]. apply rev_app_spec. Qed.

Lemma lower_app (a b : string) : lower (a +:+ b) = lower a +:+ lower b.
Proof.
  induction a as [|x a IH]; [reflexivity|].
  rewrite string_app_cons. cbn [lower]. now rewrite IH.
Qed.

Lemma lower_char_idempotent (c : ascii) : lower_char (lower_char c) = lower_char c.
Proof. destruct c as [[] [] [] [] [] [] [] []]; reflexivity. Qed.

Lemma lower_idempotent (s : string) : lower (lower s) = lower s.
Proof.
  induction s as [|c s IH]; cbn [lower]; [reflexivity|].
  now rewrite lower_char_idempotent, IH.
Qed.

Lemma join_cons2 (sep p q : string) (rest : list string) :
  join sep (p :: q :: rest) = p +:+ sep +:+ join sep (q :: rest).
Proof. reflexivity. Qed.

Lemma lower_join (sep : string) (parts : list string) :
  lower (join sep parts) = join (lower sep) (map lower parts).
Proof.
  induction parts as [|p [|q rest] IH]; [reflexivity | reflexivity |].
  rewrite join_cons2, !lower_app, IH. reflexivity.
Qed.

(** A needle found in a part is found in the whole. *)
Lemma contains_inside (n a x b : string) :
  contains n x = true -> contains n (a +:+ x +:+ b) = true.
Proof.
  rewrite !contains_spec. intros (u & v & ->).
  exists (a +:+ u), (v +:+ b). now rewrite !string_app_assoc.
Qed.

(** Each joined part sits inside the joined text. *)
Lemma join_part (sep x : string) (parts : list string) :
  In x parts -> exists a b, join sep parts = a +:+ x +:+ b.
Proof.
  induction parts as [|p [|q rest] IH]; intros Hin.
  - destruct Hin.
  - destruct Hin as [->|[]]. exists "", "". cbn [join].
    now rewrite string_app_nil_r.
  - rewrite join_cons2. destruct Hin as [->|Hin].
    + exists "", (sep +:+ join sep (q :: rest)). reflexivity.
    + destruct (IH Hin) as (a & b & ->).
      exists (p +:+ sep +:+ a), b. now rewrite !string_app_assoc.
Qed.

(** Each piece of a split sits inside the text that was split. *)
Lemma split_go_part (sep : ascii) (s cur piece : string) :
  In piece (split_go sep cur s) ->
  exists a b, String.rev cur +:+ s = a +:+ piece +:+ b.
Proof.
  revert cur. induction s as [|c s IH]; intros cur Hin; cbn [split_go] in Hin.
  - destruct Hin as [<-|[]]. exists "", "". reflexivity.
  - destruct (Ascii.eqb c sep).
    + destruct Hin as [<-|Hin].
      * exists "", (String c s). reflexivity.
      * destruct (IH "" Hin) as (a & b & E).
        change (String.rev "" +:+ s) with s in E.
        exists (String.rev cur +:+ String c a), b.
        rewrite !string_app_assoc, string_app_cons, E. reflexivity.
    + destruct (IH (String c cur) Hin) as (a & b & E).
      exists a, b. rewrite <- E, rev_cons, string_app_assoc. reflexivity.
Qed.

Lemma split_part (sep : ascii) (s piece : string) :
  In piece (split sep s) -> exists a b, s = a +:+ piece +:+ b.
Proof. intros Hin. exact (split_go_part sep s "" piece Hin). Qed.

End MoreStrings.

(** ** Hint progression, continued *)

Section MoreHints.
Import HintAgent.

(** X1.  A hint call for one problem leaves the stored level of every
    other problem as it was, whether the call returns or raises. *)
Theorem other_problems_keep_their_level (llm : prompt -> outcome string)
    (p : problem) (code approach : option string) (lvl : Z)
    (h : gmap string Z) (other : string) :
  other <> default "unknown" (problem_id p) ->
  snd (get_progressive_hints llm p code approach lvl h) !! other = h !! other.
Proof.
  intros Hne. rewrite get_progressive_hints_run.
  destruct (generator llm p code approach _); cbn [snd].
  - now rewrite lookup_insert_ne.
  - case_decide; [now rewrite lookup_insert_ne | reflexivity].
Qed.

(** X2.  After a call that served level [L], the next call for the same
    problem serves level [L + 1] unless it asks for more: a request for an
    earlier level is not honoured. *)
Theorem next_hint_is_one_level_up (llm llm' : prompt -> outcome string)
    (p : problem) (code approach code' approach' : option string)
    (lvl lvl' : Z) (h h' : gmap string Z) (r : hint_result) (text : string) :
  get_progressive_hints llm p code approach lvl h = (Returned r, h') ->
  lvl' <= hint_level r + 1 ->
  generator llm' p code' approach' (hint_level r + 1) = Returned text ->
  get_progressive_hints llm' p code' approach' lvl' h' =
    (Returned (served text (hint_level r + 1)),
     <[default "unknown" (problem_id p) := hint_level r + 2]> h').
Proof.
  intros Hfirst Hlvl Hgen. rewrite get_progressive_hints_run in Hfirst.
  destruct (generator llm p code approach _) as [t|]; [|discriminate].
  injection Hfirst as <- <-. cbn [hint_level] in *.
  set (L := Z.max _ lvl) in *.
  rewrite get_progressive_hints_run, lookup_insert_eq.
  change (default 0 (Some (L + 1))) with (L + 1).
  rewrite (Z.max_l (L + 1) lvl') by lia. rewrite Hgen, !insert_insert_eq.
  unfold served. replace (L + 1 + 1) with (L + 2) by lia. reflexivity.
Qed.

(** X3.  A call whose model request fails can be retried: the retry
    behaves as the same call would have on the state before the failure. *)
Theorem failed_hint_can_be_retried (llm llm' : prompt -> outcome string)
    (p : problem) (code approach : option string) (lvl : Z)
    (h : gmap string Z) (e : exn) :
  fst (get_progressive_hints llm p code approach lvl h) = Raised e ->
  get_progressive_hints llm' p code approach lvl
    (snd (get_progressive_hints llm p code approach lvl h))
  = get_progressive_hints llm' p code approach lvl h.
Proof.
  intros Hfail. rewrite (get_progressive_hints_run llm) in *.
  destruct (generator llm p code approach _); [discriminate|]. cbn [snd].
  case_decide as Hfresh; [|reflexivity].
  rewrite !get_progressive_hints_run, lookup_insert_eq, Hfresh.
  cbn [default from_option id].
  destruct (generator llm' p code approach _); [now rewrite insert_insert_eq|].
  rewrite decide_False by discriminate.
  rewrite decide_True by reflexivity. reflexivity.
Qed.

End MoreHints.

Lemma other_problems_keep_their_level_witness :
  "gen_0007" <> default "unknown" (problem_id sample_problem) /\
  snd (HintAgent.get_progressive_hints prose_model sample_problem None None 0
         {["gen_0007" := 2]}) !! "gen_0007" = Some 2.
Proof.
  assert ("gen_0007" <> default "unknown" (problem_id sample_problem)) as H
    by discriminate.
  split; [exact H|].
  rewrite (other_problems_keep_their_level prose_model sample_problem None None 0
             {["gen_0007" := 2]} "gen_0007" H).
  reflexivity.
Defined.

Lemma next_hint_is_one_level_up_witness :
  HintAgent.get_progressive_hints prose_model sample_problem None None 2 ∅
    = (Returned (served "Sure! Here is what I think about it." 2),
       {["gen_0042" := 3]}) /\
  0 <= 2 + 1 /\
  HintAgent.get_progressive_hints prose_model sample_problem None None 0
    {["gen_0042" := 3]}
    = (Returned (served "Sure! Here is what I think about it." 3),
       {["gen_0042" := 4]}).
Proof.
  split; [reflexivity | split; [lia|]].
  exact (next_hint_is_one_level_up prose_model prose_model sample_problem
           None None None None 2 0 ∅ {["gen_0042" := 3]}
           (served "Sure! Here is what I think about it." 2)
           "Sure! Here is what I think about it."
           eq_refl ltac:(cbn; lia) eq_refl).
Defined.

Lemma failed_hint_can_be_retried_witness :
  fst (HintAgent.get_progressive_hints failing_model sample_problem None None 1 ∅)
    = Raised ExternalError /\
  HintAgent.get_progressive_hints prose_model sample_problem None None 1
    (snd (HintAgent.get_progressive_hints failing_model sample_problem None None 1 ∅))
  = (Returned (served "Sure! Here is what I think about it." 1),
     {["gen_0042" := 2]}).
Proof.
  assert (fst (HintAgent.get_progressive_hints failing_model sample_problem
                 None None 1 ∅) = Raised ExternalError) as H by reflexivity.
  split; [exact H|].
  rewrite (failed_hint_can_be_retried failing_model prose_model sample_problem
             None None 1 ∅ ExternalError H).
  reflexivity.
Defined.

(** ** Stuck points and suggestions *)

Section StuckPoints.
Import HintAnalysis.

(** A word found in one action, whatever its case there, is found in the
    text the classifier searches. *)
Lemma found_in_action_text (actions : list string) (x w : string) :
  In x actions -> contains w (lower x) = true ->
  contains w (lower (join " " actions)) = true.
Proof.
  intros Hin Hw. destruct (join_part " " x actions Hin) as (a & b & ->).
  rewrite !lower_app. now apply contains_inside.
Qed.

Lemma any_in_found (words : list string) (text w : string) :
  In w words -> contains w text = true -> any_in words text = true.
Proof.
  intros Hin Hw. unfold any_in. apply existsb_exists. now exists w.
Qed.

(** X4.  The input-format category has the highest priority: when any
    action mentions "input", "read" or "parse", in any case and anywhere
    inside a word, the stuck point is "Understanding input format",
    whatever else the actions say. *)
Theorem input_words_come_first (actions : list string) (x w : string) :
  In x actions ->
  In w ["input"; "read"; "parse"] ->
  contains w (lower x) = true ->
  _identify_stuck_point actions = INPUT_FORMAT.
Proof.
  intros Hx Hw Hc. unfold _identify_stuck_point.
  now rewrite (any_in_found _ _ w Hw (found_in_action_text actions x w Hx Hc)).
Qed.

(** X5.  Actions that mention none of the input and output words and
    mention "loop", "iterate", "for" or "while" somewhere are classified
    as "Implementing iteration logic"; so are the actions "tried using a
    for loop", "got confused". *)
Theorem iteration_words_come_third (actions : list string) (x w : string) :
  any_in ["input"; "read"; "parse"] (lower (join " " actions)) = false ->
  any_in ["output"; "print"; "return"] (lower (join " " actions)) = false ->
  In x actions ->
  In w ["loop"; "iterate"; "for"; "while"] ->
  contains w (lower x) = true ->
  _identify_stuck_point actions = ITERATION.
Proof.
  intros H1 H2 Hx Hw Hc. unfold _identify_stuck_point. rewrite H1, H2.
  now rewrite (any_in_found _ _ w Hw (found_in_action_text actions x w Hx Hc)).
Qed.

(** X6.  The classification ignores case: lowering every action changes
    nothing. *)
Theorem stuck_point_ignores_case (actions : list string) :
  _identify_stuck_point (map lower actions) = _identify_stuck_point actions.
Proof.
  unfold _identify_stuck_point.
  rewrite !lower_join, map_map.
  rewrite (map_ext (fun a => lower (lower a)) lower lower_idempotent).
  reflexivity.
Qed.

Lemma first_suggestion_none (lines : list string) :
  (forall line, In line lines -> suggests line = false) ->
  first_suggestion lines = None.
Proof.
  induction lines as [|l rest IH]; intros H; [reflexivity|].
  cbn [first_suggestion]. rewrite (H l (or_introl eq_refl)).
  apply IH. intros line Hin. apply H. now right.
Qed.

(** X7.  When the analysis mentions none of "suggestion", "try" and
    "should", in any case, the suggestion is the stock sentence. *)
Theorem no_cue_gives_stock_suggestion (text : string) :
  contains "suggestion" (lower text) = false ->
  contains "try" (lower text) = false ->
  contains "should" (lower text) = false ->
  _extract_suggestion text = NO_SUGGESTION.
Proof.
  intros H1 H2 H3. unfold _extract_suggestion.
  rewrite first_suggestion_none; [reflexivity|].
  intros line Hin. destruct (split_part _ _ _ Hin) as (a & b & E).
  assert (forall w, contains w (lower text) = false ->
                    contains w (lower line) = false) as Hsub.
  { intros w Hw. destruct (contains w (lower line)) eqn:Hc; [|reflexivity].
    rewrite E, !lower_app, (contains_inside _ _ _ _ Hc) in Hw. discriminate. }
  unfold suggests. now rewrite (Hsub _ H1), (Hsub _ H2), (Hsub _ H3).
Qed.

(** X8.  The suggestion is the stock sentence, or the stripped form of the
    first line of the analysis that mentions one of the three cue words. *)
Theorem suggestion_is_first_cue_line (text : string) :
  _extract_suggestion text = NO_SUGGESTION \/
  exists before line after,
    split "010"%char text = (before ++ line :: after)%list /\
    (forall l, In l before -> suggests l = false) /\
    suggests line = true /\
    _extract_suggestion text = strip line.
Proof.
  unfold _extract_suggestion.
  induction (split "010"%char text) as [|l rest IH]; [now left|].
  cbn [first_suggestion]. destruct (suggests l) eqn:Hl.
  - right. exists [], l, rest. repeat split; [intros ? [] | exact Hl].
  - destruct IH as [IH|(before & line & after & -> & Hb & Hline & IH)].
    + left. exact IH.
    + right. exists (l :: before), line, after.
      repeat split; [|exact Hline|exact IH].
      intros l' [<-|Hin]; [exact Hl | now apply Hb].
Qed.

End StuckPoints.

Lemma input_words_come_first_witness :
  In "I cannot PARSE the first line" shouting_actions /\
  In "parse" ["input"; "read"; "parse"] /\
  contains "parse" (lower "I cannot PARSE the first line") = true /\
  HintAnalysis._identify_stuck_point shouting_actions = HintAnalysis.INPUT_FORMAT.
Proof.
  assert (In "I cannot PARSE the first line" shouting_actions) as H1
    by (left; reflexivity).
  assert (In "parse" ["input"; "read"; "parse"]) as H2
    by (right; right; left; reflexivity).
  assert (contains "parse" (lower "I cannot PARSE the first line") = true) as H3
    by reflexivity.
  split; [exact H1 | split; [exact H2 | split; [exact H3 |]]].
  exact (input_words_come_first shouting_actions _ _ H1 H2 H3).
Defined.

Lemma iteration_words_come_third_witness :
  HintAnalysis.any_in ["input"; "read"; "parse"]
    (lower (join " " for_loop_actions)) = false /\
  HintAnalysis.any_in ["output"; "print"; "return"]
    (lower (join " " for_loop_actions)) = false /\
  HintAnalysis._identify_stuck_point for_loop_actions = HintAnalysis.ITERATION.
Proof.
  split; [reflexivity | split; [reflexivity|]].
  apply (iteration_words_come_third for_loop_actions "tried using a for loop" "for").
  - reflexivity.
  - reflexivity.
  - left. reflexivity.
  - right. right. left. reflexivity.
  - reflexivity.
Defined.

Lemma no_cue_gives_stock_suggestion_witness :
  contains "suggestion" (lower "The student mixes up indices.") = false /\
  contains "try" (lower "The student mixes up indices.") = false /\
  contains "should" (lower "The student mixes up indices.") = false /\
  HintAnalysis._extract_suggestion "The student mixes up indices."
    = HintAnalysis.NO_SUGGESTION.
Proof.
  split; [reflexivity | split; [reflexivity | split; [reflexivity |]]].
  exact (no_cue_gives_stock_suggestion "The student mixes up indices."
           eq_refl eq_refl eq_refl).
Defined.

(** ** The evaluation pipeline, continued *)

Section MoreEvaluation.
Import EvalAgent.
Variable llm : prompt -> outcome string.
Variable json_loads : string -> option json.

(** A returned evaluation, taken apart. *)
Lemma evaluate_solution_inversion (p : problem) (code : string)
    (explanation : option string) (r : evaluation) :
  evaluate_solution llm json_loads p code explanation = Returned r ->
  syntax_check r = _check_syntax code /\
  _run_conceptual_tests llm json_loads p code = Returned (test_results r) /\
  _generate_feedback llm json_loads p code explanation (test_results r)
    = Returned (feedback r) /\
  _calculate_score (_check_syntax code) (test_results r) (feedback r)
    = Returned (score r) /\
  _suggest_improvements llm json_loads code p (feedback r)
    = Returned (improvements r) /\
  correctness r = (70 <=? score r) /\
  next_steps r = _recommend_next_steps (score r) (feedback r).
Proof.
  unfold evaluate_solution.
  destruct (_run_conceptual_tests llm json_loads p code) as [tr|] eqn:Et;
    cbn [mbind outcome_bind]; [|discriminate].
  destruct (_generate_feedback llm json_loads p code explanation tr) as [fb|] eqn:Ef;
    cbn [mbind outcome_bind]; [|discriminate].
  destruct (_calculate_score (_check_syntax code) tr fb) as [s|] eqn:Es;
    cbn [mbind outcome_bind]; [|discriminate].
  destruct (_suggest_improvements llm json_loads code p fb) as [imp|] eqn:Ei;
    cbn [mbind outcome_bind mret outcome_ret]; [|discriminate].
  intros [= <-]. cbn. repeat split; first [assumption | reflexivity].
Qed.

Lemma imports_are_an_issue (code : string) :
  contains "import " code = true -> has_issues (_check_syntax code) = true.
Proof.
  intros Hi. unfold _check_syntax. cbn [has_issues]. rewrite Hi.
  unfold append_if at 1. rewrite length_app. cbn [length]. apply Z.ltb_lt. lia.
Qed.

(** X9.  An evaluation passes only if the assessment marks the approach
    correct: without those 40 points no score reaches 70. *)
Theorem passing_needs_a_correct_approach (p : problem) (code : string)
    (explanation : option string) (r : evaluation) :
  evaluate_solution llm json_loads p code explanation = Returned r ->
  correctness r = true ->
  exists fields,
    test_results r = JObj fields /\
    truthy (field "approach_correct" (JBool false) fields) = true.
Proof.
  intros Hr Hpass.
  destruct (evaluate_solution_inversion p code explanation r Hr)
    as (_ & _ & _ & Hs & _ & Hc & _).
  apply calculate_score_inversion in Hs
    as (trf & fbf & ne & np & Htr & _ & _ & _ & Hs).
  exists trf. split; [exact Htr|].
  rewrite Hc, Hs in Hpass. apply Z.leb_le in Hpass.
  destruct (truthy _); [reflexivity|].
  unfold spec_score in Hpass. cbn zeta in Hpass.
  destruct (negb _), (2 <=? ne), (ne =? 1), (2 <=? np), (np =? 1);
    cbn in Hpass; lia.
Qed.

(** X10.  A solution that contains ["import "] never scores above 80: the
    imports note counts as an issue and the 20 syntax points are lost. *)
Theorem imports_cost_the_syntax_points (p : problem) (code : string)
    (explanation : option string) (r : evaluation) :
  contains "import " code = true ->
  evaluate_solution llm json_loads p code explanation = Returned r ->
  has_issues (syntax_check r) = true /\ score r <= 80.
Proof.
  intros Hi Hr.
  destruct (evaluate_solution_inversion p code explanation r Hr)
    as (Hsc & _ & _ & Hs & _ & _ & _).
  pose proof (imports_are_an_issue code Hi) as Hissue.
  rewrite Hsc. split; [exact Hissue|].
  apply calculate_score_inversion in Hs
    as (trf & fbf & ne & np & _ & _ & _ & _ & ->).
  rewrite Hissue. unfold spec_score. cbn [negb]. cbn zeta.
  destruct (truthy _), (2 <=? ne), (ne =? 1), (2 <=? np), (np =? 1); cbn; lia.
Qed.

(** X11.  When the reply to the conceptual-assessment prompt does not
    decode, the solution cannot pass: the score is at most 40. *)
Theorem undecoded_assessment_fails (p : problem) (code content : string)
    (explanation : option string) (r : evaluation) :
  llm (ConceptualTests p code) = Returned content ->
  json_loads content = None ->
  evaluate_solution llm json_loads p code explanation = Returned r ->
  score r <= 40 /\ correctness r = false.
Proof.
  intros Hllm Hjson Hr.
  destruct (evaluate_solution_inversion p code explanation r Hr)
    as (_ & Ht & _ & Hs & _ & Hc & _).
  unfold _run_conceptual_tests, loads_or in Ht.
  rewrite Hllm in Ht. cbn [mbind outcome_bind] in Ht. rewrite Hjson in Ht.
  injection Ht as Ht. rewrite <- Ht in Hs.
  apply calculate_score_inversion in Hs
    as (trf & fbf & ne & np & Htr & _ & Hne & _ & Hs).
  injection Htr as <-. cbn in Hne. injection Hne as <-.
  assert (score r <= 40) as Hle.
  { rewrite Hs. generalize (negb (has_issues (_check_syntax code))). intros b.
    unfold spec_score. cbn.
    change (2 <=? Z.of_nat 0) with false. change (Z.of_nat 0 =? 1) with false.
    destruct b, (2 <=? np), (np =? 1); cbn; lia. }
  split; [exact Hle|]. rewrite Hc. apply Z.leb_gt. lia.
Qed.

(** X12.  Every score is one of 0, 10, 20, ..., 100. *)
Theorem score_is_a_multiple_of_ten (p : problem) (code : string)
    (explanation : option string) (r : evaluation) :
  evaluate_solution llm json_loads p code explanation = Returned r ->
  exists k, 0 <= k <= 10 /\ score r = 10 * k.
Proof.
  intros Hr.
  destruct (evaluate_solution_inversion p code explanation r Hr)
    as (_ & _ & _ & Hs & _ & _ & _).
  apply calculate_score_inversion in Hs
    as (trf & fbf & ne & np & _ & _ & _ & _ & ->).
  unfold spec_score. cbn zeta.
  destruct (negb _), (truthy _), (2 <=? ne), (ne =? 1), (2 <=? np), (np =? 1);
    cbn;
    first [ exists 0; lia | exists 1; lia | exists 2; lia | exists 3; lia
          | exists 4; lia | exists 5; lia | exists 6; lia | exists 7; lia
          | exists 8; lia | exists 9; lia | exists 10; lia ].
Qed.

(** X13.  The advice matches the verdict: a passed evaluation gets the
    list for scores from 90 or the list for scores from 70, a failed one the
    list for scores from 50 or the list below; each has three entries. *)
Theorem next_steps_match_the_verdict (p : problem) (code : string)
    (explanation : option string) (r : evaluation) :
  evaluate_solution llm json_loads p code explanation = Returned r ->
  length (next_steps r) = 3%nat /\
  (if correctness r
   then next_steps r = _recommend_next_steps 90 (feedback r) \/
        next_steps r = _recommend_next_steps 70 (feedback r)
   else next_steps r = _recommend_next_steps 50 (feedback r) \/
        next_steps r = _recommend_next_steps 0 (feedback r)).
Proof.
  intros Hr.
  destruct (evaluate_solution_inversion p code explanation r Hr)
    as (_ & _ & _ & _ & _ & -> & ->).
  unfold _recommend_next_steps.
  destruct (Z.leb_spec 90 (score r)), (Z.leb_spec 70 (score r)),
    (Z.leb_spec 50 (score r)); cbn; try lia; auto.
Qed.

End MoreEvaluation.

Lemma passing_needs_a_correct_approach_witness :
  exists r,
    EvalAgent.evaluate_solution praising_model two_replies sample_problem
      plain_code None = Returned r /\
    EvalAgent.correctness r = true /\
    exists fields,
      EvalAgent.test_results r = JObj fields /\
      truthy (field "approach_correct" (JBool false) fields) = true.
Proof.
  eexists. split; [reflexivity|]. split; [reflexivity|].
  apply (passing_needs_a_correct_approach praising_model two_replies sample_problem
           plain_code None); reflexivity.
Defined.

Lemma imports_cost_the_syntax_points_witness :
  exists r,
    contains "import " importing_code = true /\
    EvalAgent.evaluate_solution praising_model two_replies sample_problem
      importing_code None = Returned r /\
    (EvalAgent.has_issues (EvalAgent.syntax_check r) = true /\
     EvalAgent.score r <= 80).
Proof.
  eexists. split; [reflexivity|]. split; [reflexivity|].
  apply (imports_cost_the_syntax_points praising_model two_replies sample_problem
           importing_code None); reflexivity.
Defined.

Lemma undecoded_assessment_fails_witness :
  exists r,
    prose_model (ConceptualTests sample_problem plain_code)
      = Returned "Sure! Here is what I think about it." /\
    no_json "Sure! Here is what I think about it." = None /\
    EvalAgent.evaluate_solution prose_model no_json sample_problem plain_code None
      = Returned r /\
    (EvalAgent.score r <= 40 /\ EvalAgent.correctness r = false).
Proof.
  eexists. split; [reflexivity|]. split; [reflexivity|]. split; [reflexivity|].
  apply (undecoded_assessment_fails prose_model no_json sample_problem plain_code
           "Sure! Here is what I think about it." None); reflexivity.
Defined.

Lemma score_is_a_multiple_of_ten_witness :
  exists r,
    EvalAgent.evaluate_solution praising_model two_replies sample_problem
      importing_code None = Returned r /\
    exists k, 0 <= k <= 10 /\ EvalAgent.score r = 10 * k.
Proof.
  eexists. split; [reflexivity|].
  apply (score_is_a_multiple_of_ten praising_model two_replies sample_problem
           importing_code None); reflexivity.
Defined.

Lemma next_steps_match_the_verdict_witness :
  exists r,
    EvalAgent.evaluate_solution praising_model two_replies sample_problem
      plain_code None = Returned r /\
    EvalAgent.next_steps r
      = ["Try a harder variation of this problem";
         "Explain your solution to reinforce learning";
         "Help another student with similar problem"] /\
    length (EvalAgent.next_steps r) = 3%nat.
Proof.
  eexists. split; [reflexivity|]. split; [reflexivity|].
  exact (proj1 (next_steps_match_the_verdict praising_model two_replies
                  sample_problem plain_code None _ eq_refl)).
Defined.

Section Improvements.
Import EvalAgent.
Variable llm : prompt -> outcome string.
Variable json_loads : string -> option json.

(** X14.  At most five improvement suggestions are returned, and the ones
    built from the feedback come first: the model's code suggestions only
    fill what is left of the five places. *)
Theorem improvements_are_capped (code : string) (p : problem) (fb : json)
    (l : list json) :
  _suggest_improvements llm json_loads code p fb = Returned l ->
  (length l <= 5)%nat /\
  exists items general,
    (needed ← get fb "improvements_needed" (JList []); iter needed) = Returned items /\
    mapM general_suggestion items = Returned general /\
    firstn (length general) l = firstn 5 general.
Proof.
  unfold _suggest_improvements.
  destruct (get fb "improvements_needed" (JList [])) as [needed|];
    cbn [mbind outcome_bind]; [|discriminate].
  destruct (iter needed) as [items|]; cbn [mbind outcome_bind]; [|discriminate].
  destruct (mapM general_suggestion items) as [general|] eqn:Eg;
    cbn [mbind outcome_bind]; [|discriminate].
  destruct (llm (Improvements code p)) as [content|];
    cbn [mbind outcome_bind mret outcome_ret]; [|discriminate].
  intros [= <-]. split.
  - rewrite List.length_firstn. lia.
  - exists items, general. split; [reflexivity | split; [exact Eg|]].
    rewrite take_take, Nat.min_comm, <- take_take.
    now rewrite take_app_length.
Qed.

End Improvements.

Lemma improvements_are_capped_witness :
  exists l,
    EvalAgent._suggest_improvements praising_model two_replies plain_code
      sample_problem two_improvements = Returned l /\
    (length l <= 5)%nat.
Proof.
  eexists. split; [reflexivity|].
  apply (improvements_are_capped praising_model two_replies plain_code
           sample_problem two_improvements).
  reflexivity.
Defined.

(** ** Session starts *)

Section SessionStarts.
Import TeacherAgent Orchestrator.
Variable llm : prompt -> outcome string.
Variable similarity_search : string -> outcome (list Document).

Lemma counted_lookup (table : gmap string progress) (id : string) :
  alter count_session id
    (if decide (table !! id = None) then <[id := fresh_progress]> table else table)
    !! id = Some (counted (table !! id)).
Proof.
  rewrite lookup_alter_eq. unfold counted. case_decide as H.
  - now rewrite lookup_insert_eq, H.
  - destruct (table !! id); [reflexivity | congruence].
Qed.

Lemma counted_lookup_other (table : gmap string progress) (id other : string) :
  other <> id ->
  alter count_session id
    (if decide (table !! id = None) then <[id := fresh_progress]> table else table)
    !! other = table !! other.
Proof.
  intros Hne. rewrite lookup_alter_ne by congruence.
  case_decide; [now rewrite lookup_insert_ne by congruence | reflexivity].
Qed.

(** What a session start with a known difficulty leaves outside the
    teacher's progress map: on success one more history entry and a new
    current student, on failure neither. *)
Lemma start_learning_session_rest (uuid : string) (teacher_now now : Z)
    (student_id : string) (topics : list string) (d : string) (de : Difficulty)
    (sys : DSATutorSystem) :
  Difficulty_of_value d = Returned de ->
  let out := start_learning_session llm similarity_search uuid teacher_now now
               student_id topics d sys in
  hint_history (snd out) = hint_history sys /\
  match fst out with
  | Returned info =>
      info_session_id info = uuid /\
      current_student (snd out) = Some student_id /\
      session_history (snd out) =
        (session_history sys ++ [started_entry uuid now topics d])%list
  | Raised _ =>
      current_student (snd out) = current_student sys /\
      session_history (snd out) = session_history sys
  end.
Proof.
  intros Hd. cbn zeta.
  unfold start_learning_session, mbind at 1, method_bind, lift. rewrite Hd.
  unfold mbind at 1, method_bind, in_teacher.
  unfold start_teaching_session, mbind, method_bind, get_self, set_self, lift,
    mret, method_ret.
  destruct (_generate_learning_plan _ _ _); [|cbn; auto].
  destruct (_generate_welcome_message _ _); cbn; auto.
Qed.

(** X15.  A session start that returns has started exactly one session:
    the returned id is the fresh uuid, the student is the current one, the
    history has one more entry at its end, the student's session count is one
    more than before (1 for a new student), and no other student's record
    and no hint level has changed. *)
Theorem session_start_effects (uuid : string) (teacher_now now : Z)
    (student_id : string) (topics : list string) (d : string)
    (sys sys' : DSATutorSystem) (info : session_info) :
  start_learning_session llm similarity_search uuid teacher_now now
    student_id topics d sys = (Returned info, sys') ->
  info_session_id info = uuid /\
  current_student sys' = Some student_id /\
  session_history sys' =
    (session_history sys ++ [started_entry uuid now topics d])%list /\
  hint_history sys' = hint_history sys /\
  student_progress (teacher sys') !! student_id
    = Some (counted (student_progress (teacher sys) !! student_id)) /\
  forall other, other <> student_id ->
    student_progress (teacher sys') !! other
      = student_progress (teacher sys) !! other.
Proof.
  intros Hrun.
  destruct (Difficulty_of_value d) as [de|e] eqn:Hd.
  - pose proof (start_learning_session_rest uuid teacher_now now student_id topics
                  d de sys Hd) as Hrest.
    pose proof (start_learning_session_table llm similarity_search uuid teacher_now
                  now student_id topics d sys) as Htable.
    cbn zeta in Hrest. rewrite Hrun in Hrest, Htable. rewrite Hd in Htable.
    cbn [fst snd] in Hrest, Htable.
    destruct Hrest as (Hh & Hi & Hc & Hs).
    repeat split; try assumption.
    + rewrite Htable. apply counted_lookup.
    + intros other Hne. rewrite Htable. now apply counted_lookup_other.
  - unfold start_learning_session, mbind at 1, method_bind, lift in Hrun.
    rewrite Hd in Hrun. discriminate.
Qed.

(** X16.  A session start that fails after the difficulty was accepted
    (the vector store or the model raised) has counted the session all the
    same, but has appended no history entry and has not changed the current
    student. *)
Theorem failed_session_start_is_counted (uuid : string) (teacher_now now : Z)
    (student_id : string) (topics : list string) (d : string) (de : Difficulty)
    (sys sys' : DSATutorSystem) (e : exn) :
  Difficulty_of_value d = Returned de ->
  start_learning_session llm similarity_search uuid teacher_now now
    student_id topics d sys = (Raised e, sys') ->
  student_progress (teacher sys') !! student_id
    = Some (counted (student_progress (teacher sys) !! student_id)) /\
  session_history sys' = session_history sys /\
  current_student sys' = current_student sys.
Proof.
  intros Hd Hrun.
  pose proof (start_learning_session_rest uuid teacher_now now student_id topics
                d de sys Hd) as Hrest.
  pose proof (start_learning_session_table llm similarity_search uuid teacher_now
                now student_id topics d sys) as Htable.
  cbn zeta in Hrest. rewrite Hrun in Hrest, Htable. rewrite Hd in Htable.
  cbn [fst snd] in Hrest, Htable. destruct Hrest as (_ & Hc & Hs).
  repeat split; try assumption.
  rewrite Htable. apply counted_lookup.
Qed.

(** X17.  Once a session start got past the difficulty check, whether it
    then returned or raised, [get_student_progress] finds the student, and
    reports one session more than were counted before. *)
Theorem student_is_found_after_a_start (uuid : string) (teacher_now now : Z)
    (student_id : string) (topics : list string) (d : string) (de : Difficulty)
    (sys : DSATutorSystem) :
  Difficulty_of_value d = Returned de ->
  let sys' := snd (start_learning_session llm similarity_search uuid teacher_now
                     now student_id topics d sys) in
  exists r,
    get_student_progress student_id sys' = (Returned (ReportDict r), sys') /\
    report_total_sessions r =
      1 + match student_progress (teacher sys) !! student_id with
          | Some pr => total_sessions pr
          | None => 0
          end.
Proof.
  intros Hd. cbn zeta.
  pose proof (start_learning_session_table llm similarity_search uuid teacher_now
                now student_id topics d sys) as Htable.
  rewrite Hd in Htable.
  set (sys' := snd (start_learning_session _ _ _ _ _ _ _ _ _)) in *.
  destruct (get_student_progress_known sys' student_id
              (counted (student_progress (teacher sys) !! student_id)))
    as (r & Hr & _ & Hn & _).
  { rewrite Htable. apply counted_lookup. }
  exists r. split; [exact Hr|]. rewrite Hn. unfold counted.
  destruct (student_progress (teacher sys) !! student_id); cbn; lia.
Qed.

End SessionStarts.

Lemma session_start_effects_witness :
  exists info,
    Orchestrator.start_learning_session prose_model no_documents
      "3f2b8c1e-7a4d-4e0b-9c55-0d6e1f2a9b10" 1000 1001
      "alice_123" ["Arrays"] "Easy" Orchestrator.new_system
      = (Returned info, after_first_session) /\
    Orchestrator.session_history after_first_session =
      [started_entry "3f2b8c1e-7a4d-4e0b-9c55-0d6e1f2a9b10" 1001 ["Arrays"] "Easy"].
Proof.
  eexists. split; [reflexivity|].
  apply (session_start_effects prose_model no_documents
           "3f2b8c1e-7a4d-4e0b-9c55-0d6e1f2a9b10" 1000 1001 "alice_123" ["Arrays"]
           "Easy" Orchestrator.new_system after_first_session _ eq_refl).
Defined.

Lemma failed_session_start_is_counted_witness :
  exists sys',
    Difficulty_of_value "Hard" = Returned HARD /\
    Orchestrator.start_learning_session hints_only_model no_documents
      "9d1c0a77-52f3-4c1e-8a60-7b2e4d5f6a01" 2000 2001
      "alice_123" ["Trees"] "Hard" after_first_session
      = (Raised ExternalError, sys') /\
    TeacherAgent.total_sessions
      <$> TeacherAgent.student_progress (Orchestrator.teacher sys') !! "alice_123"
      = Some 2 /\
    Orchestrator.session_history sys'
      = Orchestrator.session_history after_first_session.
Proof.
  eexists. split; [reflexivity|]. split; [reflexivity|].
  destruct (failed_session_start_is_counted hints_only_model no_documents
              "9d1c0a77-52f3-4c1e-8a60-7b2e4d5f6a01" 2000 2001 "alice_123"
              ["Trees"] "Hard" HARD after_first_session _ ExternalError
              eq_refl eq_refl) as (Hp & Hs & _).
  split; [|exact Hs]. rewrite Hp. reflexivity.
Defined.

Lemma student_is_found_after_a_start_witness :
  Difficulty_of_value "Easy" = Returned EASY /\
  exists r,
    Orchestrator.get_student_progress "alice_123" after_first_session
      = (Returned (Orchestrator.ReportDict r), after_first_session) /\
    Orchestrator.report_total_sessions r = 1 + 0.
Proof.
  split; [reflexivity|].
  exact (student_is_found_after_a_start prose_model no_documents
           "3f2b8c1e-7a4d-4e0b-9c55-0d6e1f2a9b10" 1000 1001 "alice_123" ["Arrays"]
           "Easy" EASY Orchestrator.new_system eq_refl).
Defined.

(** ** Mastery, plans and paths *)

Section Mastery.
Import TeacherAgent Orchestrator.

(** X18.  No operation ever writes a mastery value: in every reachable
    state the report of every known student shows an average mastery of 0
    and no strong area. *)
Theorem mastery_is_never_updated (sys : DSATutorSystem) (id : string)
    (pr : progress) :
  reachable sys ->
  student_progress (teacher sys) !! id = Some pr ->
  Forall (fun tm => snd tm = 0%Q) (topics_mastery pr) /\
  exists r,
    get_student_progress id sys = (Returned (ReportDict r), sys) /\
    (average_mastery r == 0)%Q /\
    strong_areas r = [].
Proof.
  intros Hreach Hpr.
  destruct (reachable_records_as_created sys Hreach id pr Hpr) as (Hm & _ & _).
  split.
  - rewrite Hm. unfold Topic_values. repeat constructor.
  - unfold get_student_progress, mbind, method_bind, get_self. rewrite Hpr.
    eexists. split; [reflexivity|]. cbn [average_mastery strong_areas].
    rewrite Hm. split; [vm_compute; reflexivity | reflexivity].
Qed.

Lemma after_first_session_reachable : reachable after_first_session.
Proof.
  eapply reachable_step; [apply reachable_new|].
  unfold after_first_session. apply step_start_session.
Qed.

End Mastery.

Lemma mastery_is_never_updated_witness :
  exists pr,
    reachable after_first_session /\
    TeacherAgent.student_progress (Orchestrator.teacher after_first_session)
      !! "alice_123" = Some pr /\
    Forall (fun tm => snd tm = 0%Q) (TeacherAgent.topics_mastery pr).
Proof.
  eexists. split; [exact after_first_session_reachable|].
  split; [reflexivity|].
  exact (proj1 (mastery_is_never_updated after_first_session "alice_123" _
                  after_first_session_reachable eq_refl)).
Defined.

Section Plans.
Import TeacherAgent.
Variable similarity_search : string -> outcome (list Document).

(** [mapM] in [outcome] returns the results item by item. *)
Lemma mapM_returned {A B : Type} (f : A -> outcome B) (l : list A) (ys : list B) :
  mapM f l = Returned ys -> Forall2 (fun x y => f x = Returned y) l ys.
Proof.
  revert ys. induction l as [|x l IH]; intros ys; cbn [mapM].
  - intros [= <-]. constructor.
  - destruct (f x) as [y|] eqn:Ex; cbn [mbind outcome_bind]; [|discriminate].
    destruct (mapM f l) as [ys'|]; cbn [mbind outcome_bind mret outcome_ret];
      [|discriminate].
    intros [= <-]. constructor; [exact Ex | now apply IH].
Qed.



(** X20.  When the vector store finds nothing, the plan is empty, however
    many topics were asked for. *)
Theorem empty_store_gives_empty_plan (topics : list string) (d : Difficulty) :
  (forall question, similarity_search question = Returned []) ->
  _generate_learning_plan similarity_search topics d = Returned [].
Proof.
  intros Hempty. unfold _generate_learning_plan.
  assert (mapM (plan_for_topic similarity_search d) topics
          = Returned (map (fun _ => []) topics)) as ->.
  { induction topics as [|t topics IH]; [reflexivity|].
    cbn [mapM map].
    assert (plan_for_topic similarity_search d t = Returned []) as ->.
    { unfold plan_for_topic, query. cbn zeta. rewrite !Hempty. reflexivity. }
    cbn [mbind outcome_bind]. rewrite IH. reflexivity. }
  cbn [mbind outcome_bind mret outcome_ret]. f_equal.
  induction topics as [|t topics IH]; [reflexivity | exact IH].
Qed.

End Plans.


Lemma empty_store_gives_empty_plan_witness :
  (forall question, no_documents question = Returned []) /\
  TeacherAgent._generate_learning_plan no_documents ["Arrays"; "Graphs"] HARD
    = Returned [].
Proof.
  split; [reflexivity|].
  exact (empty_store_gives_empty_plan no_documents ["Arrays"; "Graphs"] HARD
           (fun _ => eq_refl)).
Defined.

Section Paths.
Import LearningPath.

Lemma fold_path (topics : list string) (acc : list json) :
  fold_left (fun learning_path topic => (learning_path ++ path_entries topic)%list)
            topics acc
  = (acc ++ concat (map path_entries topics))%list.
Proof.
  revert acc. induction topics as [|t topics IH]; intros acc; cbn [fold_left map concat].
  - now rewrite app_nil_r.
  - now rewrite IH, <- app_assoc.
Qed.

(** X21.  The learning path has four entries per topic, laid out topic by
    topic in the order given (concept, easy problem, medium problem,
    review), and does not depend on the skill level passed. *)
Theorem learning_path_layout (topics : list string) (skill : string) :
  length (generate_learning_path topics skill) = (4 * length topics)%nat /\
  (forall (i j : nat) (topic : string),
     topics !! i = Some topic -> (j < 4)%nat ->
     generate_learning_path topics skill !! (4 * i + j)%nat
       = path_entries topic !! j) /\
  forall skill', generate_learning_path topics skill'
                 = generate_learning_path topics skill.
Proof.
  unfold generate_learning_path. rewrite fold_path. cbn [app].
  split; [|split; [|reflexivity]].
  - induction topics as [|t topics IH]; [reflexivity|].
    cbn [map concat]. rewrite length_app, IH. cbn [length path_entries]. lia.
  - induction topics as [|t topics IH]; intros i j topic Hi Hj; [discriminate|].
    cbn [map concat]. destruct i as [|i].
    + injection Hi as ->. rewrite lookup_app_l by (cbn; lia).
      f_equal.
    + cbn [lookup list_lookup] in Hi.
      rewrite lookup_app_r by (cbn; lia).
      replace (4 * S i + j - length (path_entries t))%nat with (4 * i + j)%nat
        by (cbn [length path_entries]; lia).
      now apply IH.
Qed.

End Paths.

Lemma learning_path_layout_witness :
  ["Arrays"; "Linked Lists"] !! 1%nat = Some "Linked Lists" /\
  (2 < 4)%nat /\
  get (default JNull
         (LearningPath.generate_learning_path ["Arrays"; "Linked Lists"] "beginner"
            !! (4 * 1 + 2)%nat)) "title" JNull
    = Returned (JStr "Intermediate Linked Lists Challenge").
Proof.
  split; [reflexivity | split; [lia|]].
  rewrite (proj1 (proj2 (learning_path_layout ["Arrays"; "Linked Lists"] "beginner"))
             1%nat 2%nat "Linked Lists" eq_refl ltac:(lia)).
  reflexivity.
Defined.

(** ** Generated questions *)

Section Dicts.

(** Writing a key and reading it back. *)
Lemma assoc_setitem_eq (key : string) (v : json) (d : list (string * json)) :
  assoc key (EvalAgent.setitem key v d) = Some v.
Proof.
  induction d as [|[k x] d IH]; cbn [EvalAgent.setitem assoc].
  - now rewrite String.eqb_refl.
  - destruct (String.eqb k key) eqn:E; cbn [assoc]; rewrite E; [reflexivity | exact IH].
Qed.

(** Writing a key leaves the others as they were. *)
Lemma assoc_setitem_ne (key other : string) (v : json) (d : list (string * json)) :
  other <> key -> assoc other (EvalAgent.setitem key v d) = assoc other d.
Proof.
  intros Hne. induction d as [|[k x] d IH]; cbn [EvalAgent.setitem assoc].
  - apply String.eqb_neq in Hne. rewrite String.eqb_sym in Hne. now rewrite Hne.
  - destruct (String.eqb k key) eqn:E; cbn [assoc].
    + apply String.eqb_eq in E. subst k.
      apply String.eqb_neq in Hne. rewrite String.eqb_sym in Hne. now rewrite Hne.
    + destruct (String.eqb k other); [reflexivity | exact IH].
Qed.

Lemma setitem_returned (d : json) (key : string) (v d' : json) :
  QuestionGenerator.setitem d key v = Returned d' ->
  exists fields, d = JObj fields /\ d' = JObj (EvalAgent.setitem key v fields).
Proof.
  destruct d; try discriminate. intros [= <-]. eexists. split; reflexivity.
Qed.

End Dicts.

Section FourDigits.
Import QuestionGenerator.

Lemma format_04d_length (n : Z) :
  0 <= n < 10000 -> String.length (format_04d n) = 4%nat.
Proof.
  intros Hn.
  assert (forallb (fun k => (String.length (format_04d (Z.of_nat k)) =? 4)%nat)
                  (seq 0 (Z.to_nat 10000)) = true) as Hall
    by (vm_compute; reflexivity).
  rewrite forallb_forall in Hall.
  specialize (Hall (Z.to_nat n)). rewrite Z2Nat.id in Hall by lia.
  apply Nat.eqb_eq, Hall, in_seq. lia.
Qed.

End FourDigits.

Section Questions.
Import QuestionGenerator.
Variable llm : more_prompt -> outcome string.
Variable json_loads : string -> option json.
Variable similarity_search : string -> outcome (list Document).

(** X22.  Whenever the model answers, [generate_multiple_choice] returns
    a dict whose ["concept"] and ["topic"] entries are the ones asked for,
    whatever the model said.  JSON that is no object, and text that is no
    JSON, both give the stock question, entry for entry; a JSON object is
    returned with those two entries set and its other entries as the model
    gave them. *)
Theorem multiple_choice_is_always_labelled (concept topic content : string)
    (num_options : Z) :
  llm (MultipleChoice concept topic num_options) = Returned content ->
  exists fields,
    generate_multiple_choice llm json_loads concept topic num_options
      = Returned (JObj fields) /\
    assoc "concept" fields = Some (JStr concept) /\
    assoc "topic" fields = Some (JStr topic) /\
    ((json_loads content = None \/
      exists v, json_loads content = Some v /\ forall given, v <> JObj given) ->
     fields =
       [("question",
         JStr ("What is the key characteristic of " +:+ concept +:+ " in "
               +:+ topic +:+ "?"));
        ("options", JList [JStr "Option A - Basic property";
                           JStr "Option B - Advanced property";
                           JStr "Option C - Common misconception";
                           JStr "Option D - Correct characteristic"]);
        ("correct_answer", JInt 3);
        ("explanations", JList [JStr "A is too basic";
                                JStr "B is incorrect";
                                JStr "C is wrong";
                                JStr "D correctly describes the concept"]);
        ("concept", JStr concept);
        ("topic", JStr topic)]) /\
    (forall given, json_loads content = Some (JObj given) ->
     forall key, key <> "concept" -> key <> "topic" ->
       assoc key fields = assoc key given).
Proof.
  intros Hllm. unfold generate_multiple_choice. rewrite Hllm.
  cbn [mbind outcome_bind mret outcome_ret].
  destruct (json_loads content) as [[| | | | | |given]|];
    try (eexists; split; [reflexivity|]; split; [reflexivity|];
         split; [reflexivity|]; split; [intros _; reflexivity | discriminate]).
  cbn [setitem mbind outcome_bind]. eexists. split; [reflexivity|].
  split; [|split; [|split]].
  - rewrite assoc_setitem_ne by discriminate. apply assoc_setitem_eq.
  - apply assoc_setitem_eq.
  - intros [H|(v & [= <-] & Hv)]; [discriminate | now destruct (Hv given)].
  - intros g [= <-] key Hc Ht. now rewrite !assoc_setitem_ne.
Qed.

(** X23.  A problem that [generate_question] returns carries the topic
    and the difficulty that were asked for, also when the model's JSON named
    others, and an id that is either "gen_" and four digits or "fallback_"
    and the first eight characters of a uuid. *)
Theorem generated_question_metadata (uuid now_iso : string) (hash_of : json -> Z)
    (topic : string) (d : Difficulty) (weakness : option (list string))
    (problem : json) :
  generate_question llm json_loads similarity_search uuid now_iso hash_of
    topic d weakness = Returned problem ->
  exists fields id,
    problem = JObj fields /\
    assoc "topic" fields = Some (JStr topic) /\
    assoc "difficulty" fields = Some (JStr (Difficulty_value d)) /\
    assoc "id" fields = Some (JStr id) /\
    ((exists digits, id = "gen_" +:+ digits /\ String.length digits = 4%nat) \/
     id = "fallback_" +:+ Py.take 8 uuid).
Proof.
  unfold generate_question.
  destruct (query similarity_search _ topic) as [docs|];
    cbn [mbind outcome_bind]; [|discriminate].
  destruct (llm _) as [content|]; cbn [mbind outcome_bind]; [|discriminate].
  destruct (json_loads content) as [v|].
  - destruct (setitem v "topic" _) as [v1|] eqn:E1;
      cbn [mbind outcome_bind]; [|discriminate].
    destruct (setitem v1 "difficulty" _) as [v2|] eqn:E2;
      cbn [mbind outcome_bind]; [|discriminate].
    destruct (setitem v2 "generated_at" _) as [v3|] eqn:E3;
      cbn [mbind outcome_bind]; [|discriminate].
    intros E4.
    apply setitem_returned in E1 as (f0 & -> & ->).
    apply setitem_returned in E2 as (f1 & [= <-] & ->).
    apply setitem_returned in E3 as (f2 & [= <-] & ->).
    apply setitem_returned in E4 as (f3 & [= <-] & ->).
    eexists. eexists. split; [reflexivity|]. repeat split.
    + rewrite !assoc_setitem_ne by discriminate. apply assoc_setitem_eq.
    + rewrite !assoc_setitem_ne by discriminate. apply assoc_setitem_eq.
    + apply assoc_setitem_eq.
    + left. eexists. split; [reflexivity|]. apply format_04d_length.
      apply Z.mod_pos_bound. lia.
  - intros [= <-]. eexists. eexists. split; [reflexivity|].
    repeat split. right. reflexivity.
Qed.

(** X24.  When the model answers a question request with JSON that is not
    an object (a list, a string, a number), [generate_question] raises
    [TypeError]: its handler covers decoding errors only. *)
Theorem non_object_question_raises (uuid now_iso : string) (hash_of : json -> Z)
    (topic : string) (d : Difficulty) (weakness : option (list string))
    (docs : list Document) (content : string) (v : json) :
  query similarity_search (Difficulty_value d +:+ " problem about " +:+ topic) topic
    = Returned docs ->
  (forall pr, llm pr = Returned content) ->
  json_loads content = Some v ->
  (forall fields, v <> JObj fields) ->
  generate_question llm json_loads similarity_search uuid now_iso hash_of
    topic d weakness = Raised TypeError.
Proof.
  intros Hq Hllm Hjson Hv. unfold generate_question.
  rewrite Hq. cbn [mbind outcome_bind]. rewrite Hllm. cbn [mbind outcome_bind].
  rewrite Hjson. destruct v; try reflexivity. now destruct (Hv fields).
Qed.

End Questions.

Lemma multiple_choice_is_always_labelled_witness :
  quiz_model (MultipleChoice "Binary Search" "Searching" 4) = Returned LIST_REPLY /\
  quiz_decoder LIST_REPLY = Some (JList [JInt 1; JInt 2; JInt 3]) /\
  chatty_quiz_model (MultipleChoice "Binary Search" "Searching" 4)
    = Returned "Happy to help with a quiz!" /\
  quiz_decoder "Happy to help with a quiz!" = None /\
  QuestionGenerator.generate_multiple_choice quiz_model quiz_decoder
    "Binary Search" "Searching" 4
    = QuestionGenerator.generate_multiple_choice chatty_quiz_model quiz_decoder
        "Binary Search" "Searching" 4 /\
  exists fields,
    QuestionGenerator.generate_multiple_choice quiz_model quiz_decoder
      "Binary Search" "Searching" 4 = Returned (JObj fields) /\
    assoc "concept" fields = Some (JStr "Binary Search") /\
    assoc "topic" fields = Some (JStr "Searching") /\
    assoc "correct_answer" fields = Some (JInt 3).
Proof.
  split; [reflexivity|]. split; [reflexivity|]. split; [reflexivity|].
  split; [reflexivity|].
  destruct (multiple_choice_is_always_labelled quiz_model quiz_decoder
              "Binary Search" "Searching" LIST_REPLY 4 eq_refl)
    as (fields & Hrun & Hconcept & Htopic & Hstock & _).
  destruct (multiple_choice_is_always_labelled chatty_quiz_model quiz_decoder
              "Binary Search" "Searching" "Happy to help with a quiz!" 4 eq_refl)
    as (fields' & Hrun' & _ & _ & Hstock' & _).
  split.
  - rewrite Hrun, Hrun', Hstock, Hstock'; [reflexivity | now left |].
    right. eexists. split; [reflexivity | discriminate].
  - exists fields. split; [exact Hrun|]. split; [exact Hconcept|].
    split; [exact Htopic|]. rewrite Hstock; [reflexivity|].
    right. eexists. split; [reflexivity | discriminate].
Defined.

Lemma generated_question_metadata_witness :
  exists problem,
    QuestionGenerator.generate_question quiz_model quiz_decoder no_documents
      "3f2b8c1e-7a4d-4e0b-9c55-0d6e1f2a9b10" "2025-01-01T10:00:00"
      (fun _ => -12345) "Arrays" MEDIUM None = Returned problem /\
    get problem "id" JNull = Returned (JStr "gen_7655") /\
    exists fields id,
      problem = JObj fields /\
      assoc "topic" fields = Some (JStr "Arrays") /\
      assoc "difficulty" fields = Some (JStr (Difficulty_value MEDIUM)) /\
      assoc "id" fields = Some (JStr id) /\
      ((exists digits, id = "gen_" +:+ digits /\ String.length digits = 4%nat) \/
       id = "fallback_" +:+ Py.take 8 "3f2b8c1e-7a4d-4e0b-9c55-0d6e1f2a9b10").
Proof.
  eexists. split; [reflexivity|]. split; [reflexivity|].
  apply (generated_question_metadata quiz_model quiz_decoder no_documents
           "3f2b8c1e-7a4d-4e0b-9c55-0d6e1f2a9b10" "2025-01-01T10:00:00"
           (fun _ => -12345) "Arrays" MEDIUM None).
  reflexivity.
Defined.

Lemma non_object_question_raises_witness :
  query no_documents (Difficulty_value EASY +:+ " problem about " +:+ "Trees") "Trees"
    = Returned [] /\
  (forall pr, listing_model pr = Returned LIST_REPLY) /\
  quiz_decoder LIST_REPLY = Some (JList [JInt 1; JInt 2; JInt 3]) /\
  QuestionGenerator.generate_question listing_model quiz_decoder no_documents
    "3f2b8c1e-7a4d-4e0b-9c55-0d6e1f2a9b10" "2025-01-01T10:00:00"
    (fun _ => 42) "Trees" EASY None = Raised TypeError.
Proof.
  split; [reflexivity | split; [reflexivity | split; [reflexivity|]]].
  apply (non_object_question_raises listing_model quiz_decoder no_documents
           "3f2b8c1e-7a4d-4e0b-9c55-0d6e1f2a9b10" "2025-01-01T10:00:00"
           (fun _ => 42) "Trees" EASY None [] LIST_REPLY
           (JList [JInt 1; JInt 2; JInt 3])).
  - reflexivity.
  - reflexivity.
  - reflexivity.
  - discriminate.
Defined.

Section Variations.
Import QuestionGenerator.
Variable llm_at : nat -> more_prompt -> outcome string.
Variable json_loads : string -> option json.

Lemma tagged_variation_returned (base : json) (i : nat) (content : string) (v : json) :
  tagged_variation json_loads base i content = Returned v -> tagged_for base v.
Proof.
  unfold tagged_variation. destruct (json_loads content) as [w|]; [|discriminate].
  destruct (getitem base "id") as [base_id|] eqn:Eid;
    cbn [mbind outcome_bind]; [|discriminate].
  destruct (setitem w "original_id" base_id) as [w1|] eqn:E1;
    cbn [mbind outcome_bind]; [|discriminate].
  destruct (setitem w1 "is_variation" _) as [w2|] eqn:E2;
    cbn [mbind outcome_bind]; [|discriminate].
  intros E3.
  apply setitem_returned in E1 as (f0 & -> & ->).
  apply setitem_returned in E2 as (f1 & [= <-] & ->).
  apply setitem_returned in E3 as (f2 & [= <-] & ->).
  eexists. exists base_id. split; [reflexivity|]. split; [exact Eid|].
  repeat split.
  - rewrite !assoc_setitem_ne by discriminate. apply assoc_setitem_eq.
  - rewrite !assoc_setitem_ne by discriminate. apply assoc_setitem_eq.
  - destruct (Nat.even i); [left | right]; apply assoc_setitem_eq.
Qed.

Lemma variation_round_returned (base : json) (i : nat) (part : list json) :
  variation_round llm_at json_loads base i = Returned part ->
  (length part <= 1)%nat /\ Forall (tagged_for base) part.
Proof.
  unfold variation_round.
  destruct (getitem base "description") as [description|];
    cbn [mbind outcome_bind]; [|discriminate].
  destruct (slice_to 500 description) as [excerpt|];
    cbn [mbind outcome_bind]; [|discriminate].
  destruct (llm_at i _) as [content|];
    cbn [mbind outcome_bind mret outcome_ret]; [|discriminate].
  destruct (tagged_variation json_loads base i content) as [v|] eqn:Ev;
    intros [= <-]; cbn [length].
  - split; [lia|]. constructor; [|constructor].
    exact (tagged_variation_returned base i content v Ev).
  - split; [lia | constructor].
Qed.

Lemma rounds_concat (base : json) (indices : list nat) (rounds : list (list json)) :
  Forall2 (fun i part => variation_round llm_at json_loads base i = Returned part)
          indices rounds ->
  (length (concat rounds) <= length indices)%nat /\
  Forall (tagged_for base) (concat rounds).
Proof.
  induction 1 as [|i part indices rounds Hpart _ IH]; cbn [concat].
  - split; [cbn; lia | constructor].
  - destruct (variation_round_returned base i part Hpart) as (Hlen & Hall).
    destruct IH as (IHlen & IHall). split.
    + rewrite length_app. cbn [length]. lia.
    + apply Forall_app. split; assumption.
Qed.

Lemma variations_are_tagged_aux (base : json) (num_variations : Z) (vs : list json) :
  generate_variations llm_at json_loads base num_variations = Returned vs ->
  (length vs <= Z.to_nat num_variations)%nat /\
  Forall (tagged_for base) vs.
Proof.
  unfold generate_variations.
  destruct (mapM _ _) as [rounds|] eqn:Em;
    cbn [mbind outcome_bind mret outcome_ret]; [|discriminate].
  intros [= <-]. apply mapM_returned in Em.
  destruct (rounds_concat base _ rounds Em) as (Hlen & Hall).
  rewrite length_seq in Hlen. split; assumption.
Qed.

(** X25.  [generate_variations] returns at most [num_variations]
    variations (none for a count of zero or less), and each one it returns
    is a dict that names the base problem's id as its ["original_id"], is
    flagged ["is_variation"], and is typed "easier" or "harder". *)
Theorem variations_are_tagged (base : json) (num_variations : Z) (vs : list json) :
  generate_variations llm_at json_loads base num_variations = Returned vs ->
  (length vs <= Z.to_nat num_variations)%nat /\
  Forall (tagged_for base) vs /\
  (num_variations <= 0 -> vs = []).
Proof.
  intros Hrun.
  destruct (variations_are_tagged_aux base num_variations vs Hrun) as (Hlen & Hall).
  split; [exact Hlen | split; [exact Hall|]].
  intros Hn. destruct vs; [reflexivity | cbn [length] in Hlen; lia].
Qed.

(** X26.  A base problem without an ["id"] entry yields no variation at
    all, however well the model answers: the missing key is met inside the
    [try] block and each round is skipped. *)
Theorem no_id_no_variations (fields : list (string * json)) (num_variations : Z)
    (vs : list json) :
  assoc "id" fields = None ->
  generate_variations llm_at json_loads (JObj fields) num_variations = Returned vs ->
  vs = [].
Proof.
  intros Hid Hrun.
  destruct (variations_are_tagged_aux (JObj fields) num_variations vs Hrun)
    as (_ & Hall).
  destruct vs as [|v vs]; [reflexivity|].
  apply Forall_cons in Hall as [(f & base_id & _ & Hget & _) _].
  cbn [getitem] in Hget. rewrite Hid in Hget. discriminate.
Qed.

End Variations.

Lemma variations_are_tagged_witness :
  exists vs,
    QuestionGenerator.generate_variations varying_model quiz_decoder
      stored_problem 3 = Returned vs /\
    length vs = 3%nat /\
    Forall (tagged_for stored_problem) vs.
Proof.
  eexists. split; [reflexivity|]. split; [reflexivity|].
  apply (variations_are_tagged varying_model quiz_decoder stored_problem 3).
  reflexivity.
Defined.

Lemma no_id_no_variations_witness :
  exists vs,
    assoc "id" [("description",
                 JStr "Given an array of integers, return two indices.")] = None /\
    QuestionGenerator.generate_variations varying_model quiz_decoder
      anonymous_problem 3 = Returned vs /\
    vs = [].
Proof.
  eexists. split; [reflexivity|]. split; [reflexivity|].
  apply (no_id_no_variations varying_model quiz_decoder
           [("description", JStr "Given an array of integers, return two indices.")]
           3).
  - reflexivity.
  - reflexivity.
Defined.

(** ** Configuration *)

Section Configuration.
Import Config.

(** X27.  The configuration check and the model choice agree: the check
    returns no warning exactly when [get_model_config] chooses Groq with the
    key of the environment; and [get_model_config] raises [ValueError]
    exactly when the check warns and no OpenAI key is set. *)
Theorem config_check_matches_model_choice (groq openai : option string) :
  (validate_config groq = [] <->
   exists key, groq = Some key /\
     get_model_config groq openai =
       Returned {| provider := "groq"; model := GROQ_MODEL; api_key := key;
                   temperature := MODEL_TEMPERATURE |}) /\
  (get_model_config groq openai = Raised ValueError <->
   validate_config groq = [KEY_WARNING] /\ is_set openai = false).
Proof.
  unfold validate_config, get_model_config. cbn [existsb negb app].
  change (String.eqb GROQ_MODEL "llama3-8b-8192") with false.
  change (String.eqb GROQ_MODEL "llama3-70b-8192") with false.
  change (String.eqb GROQ_MODEL "mixtral-8x7b-32768") with true.
  cbn [orb negb].
  destruct groq as [key|]; cbn [is_set is_placeholder default from_option id].
  - destruct (String.length key =? 0)%nat, (String.eqb key PLACEHOLDER_KEY);
      cbn [negb orb andb app]; destruct (is_set openai);
      (split; split; try discriminate; try tauto;
       try (intros (k & [= <-] & H); discriminate);
       try (intros _; exists key; split; reflexivity);
       try (intros [H _]; discriminate);
       try (intros [_ H]; discriminate)).
  - cbn [negb orb andb app]. destruct (is_set openai);
      (split; split; try discriminate; try tauto;
       try (intros (k & H & _); discriminate);
       try (intros [H _]; discriminate);
       try (intros [_ H]; discriminate)).
Qed.

End Configuration.

(** ** Explanations *)

Section KeyPoints.
Import Explanations.
Variable llm : teacher_prompt -> outcome string.
Variable json_loads : string -> option json.

Lemma fallback_key_points_shape (text : string) :
  (length (fallback_key_points text) <= 5)%nat /\
  Forall (fun point =>
            (20 < String.length point)%nat /\
            exists line, In line (split "010"%char text) /\ point = strip line)
         (fallback_key_points text).
Proof.
  unfold fallback_key_points. split.
  - rewrite length_take. lia.
  - apply Forall_take, Forall_forall. intros point Hin.
    apply list_elem_of_In, in_map_iff in Hin as (line & <- & Hin).
    apply filter_In in Hin as (Hin & Hlong).
    unfold long_line in Hlong. apply andb_true_iff in Hlong as (_ & Hlong).
    apply Nat.ltb_lt in Hlong. split; [exact Hlong|]. now exists line.
Qed.

(** X28.  When the reply to the key-points prompt does not decode, the key
    points are taken from the explanation itself: at most five, each the
    stripped form of one of its lines, each longer than 20 characters. *)
Theorem undecoded_key_points_come_from_the_text (text content : string) :
  llm (KeyPoints text) = Returned content ->
  json_loads content = None ->
  exists points,
    _extract_key_points llm json_loads text = Returned (JList (map JStr points)) /\
    (length points <= 5)%nat /\
    Forall (fun point =>
              (20 < String.length point)%nat /\
              exists line, In line (split "010"%char text) /\ point = strip line)
           points.
Proof.
  intros Hllm Hjson. exists (fallback_key_points text).
  unfold _extract_key_points. rewrite Hllm. cbn [mbind outcome_bind mret outcome_ret].
  rewrite Hjson. split; [reflexivity|]. apply fallback_key_points_shape.
Qed.

End KeyPoints.

Lemma undecoded_key_points_come_from_the_text_witness :
  lecturing_model (KeyPoints stack_text) = Returned "I would rather not use JSON." /\
  no_json "I would rather not use JSON." = None /\
  Explanations._extract_key_points lecturing_model no_json stack_text
    = Returned (JList [JStr "A stack is like a pile of plates in a cafeteria."]) /\
  exists points,
    Explanations._extract_key_points lecturing_model no_json stack_text
      = Returned (JList (map JStr points)) /\
    (length points <= 5)%nat /\
    Forall (fun point =>
              (20 < String.length point)%nat /\
              exists line, In line (split "010"%char stack_text) /\
                           point = strip line)
           points.
Proof.
  split; [reflexivity | split; [reflexivity | split; [reflexivity|]]].
  exact (undecoded_key_points_come_from_the_text lecturing_model no_json stack_text
           "I would rather not use JSON." eq_refl eq_refl).
Defined.

Section Visuals.
Import Explanations.
Variable llm : teacher_prompt -> outcome string.
Variable json_loads : string -> option json.
Variable similarity_search : string -> outcome (list Document).

(** X29.  An explanation comes with a visual prompt exactly when the topic
    is "Trees", "Graphs" or "Linked Lists", spelled so; its text is the
    model's answer to the explanation prompt. *)
Theorem visual_prompt_for_linked_topics_only (concept topic level : string)
    (r : explanation_result) :
  explain_concept llm json_loads similarity_search concept topic level = Returned r ->
  (visual_prompt r = None <-> ~ In topic ["Trees"; "Graphs"; "Linked Lists"]) /\
  exists context, llm (Explain concept topic level context) = Returned (explanation r).
Proof.
  unfold explain_concept.
  destruct (query similarity_search _ topic) as [docs|];
    cbn [mbind outcome_bind]; [|discriminate].
  destruct (llm (Explain _ _ _ _)) as [content|] eqn:Ec;
    cbn [mbind outcome_bind]; [|discriminate].
  destruct (existsb (String.eqb topic) ["Trees"; "Graphs"; "Linked Lists"]) eqn:Et.
  - destruct (_generate_visual_prompt llm concept topic) as [v|];
      cbn [mbind outcome_bind mret outcome_ret]; [|discriminate].
    destruct (_extract_key_points _ _ _); cbn [mbind outcome_bind]; [|discriminate].
    destruct (_get_related_concepts _ _ _ _ _);
      cbn [mbind outcome_bind mret outcome_ret]; [|discriminate].
    intros [= <-]. cbn [visual_prompt explanation]. split; [|eauto].
    split; [discriminate|]. intros Hnot. exfalso. apply Hnot.
    apply existsb_exists in Et as (t & Hin & Ht).
    apply String.eqb_eq in Ht. now subst t.
  - cbn [mbind outcome_bind mret outcome_ret].
    destruct (_extract_key_points _ _ _); cbn [mbind outcome_bind]; [|discriminate].
    destruct (_get_related_concepts _ _ _ _ _);
      cbn [mbind outcome_bind mret outcome_ret]; [|discriminate].
    intros [= <-]. cbn [visual_prompt explanation]. split; [|eauto].
    split; [|reflexivity]. intros _ Hin.
    assert (existsb (String.eqb topic) ["Trees"; "Graphs"; "Linked Lists"] = true)
      as Ht; [|congruence].
    apply existsb_exists. exists topic. split; [exact Hin | apply String.eqb_refl].
Qed.

End Visuals.

Lemma visual_prompt_for_linked_topics_only_witness :
  exists r,
    Explanations.explain_concept lecturing_model no_json no_documents
      "Push and pop" "Stacks" "beginner" = Returned r /\
    Explanations.visual_prompt r = None.
Proof.
  eexists. split; [reflexivity|].
  apply (visual_prompt_for_linked_topics_only lecturing_model no_json no_documents
           "Push and pop" "Stacks" "beginner" _ eq_refl).
  cbn. intros [H|[H|[H|[]]]]; discriminate.
Defined.

(** ** Hint levels in reachable states *)

Section HintLevels.
Import Orchestrator.

Lemma step_keeps_levels (sys sys' : DSATutorSystem) :
  step sys sys' -> levels_from_zero sys -> levels_from_zero sys'.
Proof.
  intros Hstep Hinv.
  destruct Hstep as [llm search uuid tnow now sid topics d | gq topic d weakness
                    | llm p lvl info | llm jl p code expl | sid |].
  - pose proof (start_learning_session_rest llm search uuid tnow now sid topics d) as H.
    destruct (Difficulty_of_value d) as [de|] eqn:Hd.
    + intros key level. rewrite (proj1 (H de sys eq_refl)). apply Hinv.
    + unfold start_learning_session, mbind at 1, method_bind, lift.
      now rewrite Hd.
  - unfold generate_practice_question, mbind, method_bind, lift.
    destruct (Difficulty_of_value _); exact Hinv.
  - unfold get_hint, in_hint_agent. rewrite get_progressive_hints_run.
    set (pid := default "unknown" (problem_id p)).
    destruct (generator _ _ _ _ _); intros key level; cbn [snd hint_history].
    + destruct (decide (pid = key)) as [<-|Hne].
      * rewrite lookup_insert_eq. intros [= <-].
        destruct (hint_history sys !! pid) as [k|] eqn:Ek; cbn [default from_option id].
        -- pose proof (Hinv pid k Ek). lia.
        -- lia.
      * rewrite lookup_insert_ne by exact Hne. apply Hinv.
    + case_decide; [|apply Hinv].
      destruct (decide (pid = key)) as [<-|Hne].
      * rewrite lookup_insert_eq. intros [= <-]. lia.
      * rewrite lookup_insert_ne by exact Hne. apply Hinv.
  - exact Hinv.
  - destruct (get_student_progress_returns sys sid) as [res ->]. exact Hinv.
  - intros key level. cbn. now rewrite lookup_empty.
Qed.

(** X30.  Whatever levels callers ask for, negative ones included, no
    stored hint level is ever negative, and no hint is ever reported at a
    negative level. *)
Theorem hint_levels_are_never_negative (sys : DSATutorSystem)
    (llm : prompt -> outcome string) (p : problem) (lvl : Z)
    (info : option (gmap string string)) (r : HintAgent.hint_result)
    (sys' : DSATutorSystem) :
  reachable sys ->
  get_hint llm p lvl info sys = (Returned r, sys') ->
  0 <= HintAgent.hint_level r /\
  forall key level, hint_history sys' !! key = Some level -> 0 <= level.
Proof.
  intros Hreach Hrun.
  assert (levels_from_zero sys) as Hinv.
  { clear Hrun. induction Hreach as [|s s' _ IH Hstep].
    - intros key level. cbn. now rewrite lookup_empty.
    - exact (step_keeps_levels s s' Hstep IH). }
  split.
  - unfold get_hint, in_hint_agent in Hrun.
    rewrite get_progressive_hints_run in Hrun.
    destruct (generator _ _ _ _ _); [|discriminate].
    injection Hrun as <- _. cbn [HintAgent.hint_level].
    destruct (hint_history sys !! _) as [k|] eqn:Ek; cbn [default from_option id].
    + pose proof (Hinv _ k Ek). lia.
    + lia.
  - pose proof (step_keeps_levels sys sys' ) as Hstep.
    assert (sys' = snd (get_hint llm p lvl info sys)) as -> by now rewrite Hrun.
    apply Hstep; [apply step_get_hint | exact Hinv].
Qed.

End HintLevels.

Lemma hint_levels_are_never_negative_witness :
  exists r sys',
    reachable after_first_session /\
    Orchestrator.get_hint prose_model sample_problem (-7) None after_first_session
      = (Returned r, sys') /\
    0 <= HintAgent.hint_level r.
Proof.
  eexists. eexists. split; [exact after_first_session_reachable|].
  split; [reflexivity|].
  apply (hint_levels_are_never_negative after_first_session prose_model
           sample_problem (-7) None _ _ after_first_session_reachable eq_refl).
Defined.
